(** * Cell-analyzer export library: statistics and CSV export

    A shallow embedding of [tracker_library/export_data.py] and the
    properties of its statistics engine and of the culture CSV export.

    Conventions of the embedding.
    - Python numbers (the coordinates, areas, distances and angles) are
      modelled as real numbers: [math.dist] is the Euclidean distance,
      [math.atan2] the two-argument arctangent, [math.pi] is [PI].  Rounding
      of binary floating point is not modelled.
    - A Python exception is a value of [pyexn]; a computation that may raise
      has type [result A].
    - A [dict] that is iterated ([.items()]) is an association list in
      insertion order; the statistics report is such a list from labels to
      values.
    - The file system read by [os.path.exists] and written through [open] is
      a finite map from paths to the rows of the file. *)

From Stdlib Require Import Reals Lra Lia ZArith List String Ascii Bool.
From stdpp Require Import gmap strings pretty.
Import ListNotations.

Open Scope R_scope.

(** ** Exceptions *)

Inductive pyexn : Type :=
| Exception (msg : string)
| IndexError
| KeyError
| ValueError
| ZeroDivisionError
| StopIteration.

Inductive result (A : Type) : Type :=
| Ok (a : A)
| Raise (e : pyexn).

Arguments Ok {A} a.
Arguments Raise {A} e.

Definition bind {A B : Type} (m : result A) (k : A -> result B) : result B :=
  match m with
  | Ok a => k a
  | Raise e => Raise e
  end.

Notation "'let!' x ':=' m 'in' k" := (bind m (fun x => k))
  (at level 10, x name, m at level 100, k at level 200).

(** [for x in xs: body], threading the loop state and stopping at the first
    exception. *)
Fixpoint for_each {A St : Type} (xs : list A) (body : A -> St -> result St)
    (s : St) : result St :=
  match xs with
  | [] => Ok s
  | x :: rest => let! s' := body x s in for_each rest body s'
  end.

(** [range(lo, hi)] *)
Definition range (lo hi : nat) : list nat := seq lo (hi - lo).

(** ** Numbers *)

Definition point : Type := R * R.

(** [math.dist([px, py], [qx, qy])] *)
Definition dist (p q : point) : R :=
  sqrt ((fst p - fst q) * (fst p - fst q) + (snd p - snd q) * (snd p - snd q)).

(** [math.atan2(y, x)], with [atan2(0, 0) = 0]. *)
Definition atan2 (y x : R) : R :=
  if Rlt_dec 0 x then atan (y / x)
  else if Rlt_dec x 0 then
    (if Rle_dec 0 y then atan (y / x) + PI else atan (y / x) - PI)
  else if Rlt_dec 0 y then PI / 2
  else if Rlt_dec y 0 then - (PI / 2)
  else 0.

(** [a % b] on numbers, for a positive modulus: the result has the sign of
    [b]. *)
Definition pymod (a b : R) : R := a - b * IZR (Zfloor (a / b)).

(** [a / b] *)
Definition pydiv (a b : R) : result R :=
  if Req_dec_T b 0 then Raise ZeroDivisionError else Ok (a / b).

(** [round(x)]: the nearest integer, halves going to the even neighbour. *)
Definition pyround (x : R) : Z :=
  let f := Zfloor x in
  let d := x - IZR f in
  if Rlt_dec d (1 / 2) then f
  else if Rlt_dec (1 / 2) d then (f + 1)%Z
  else if Z.even f then f else (f + 1)%Z.

(** [360 - ((math.atan2(qy - py, qx - px) * (180 / math.pi)) % 360)]: the
    direction from [p] to [q] in degrees, reflected for a top-left origin. *)
Definition angle (p q : point) : R :=
  360 - pymod (atan2 (snd q - snd p) (fst q - fst p) * (180 / PI)) 360.

(** ** Sequences *)

(** [l[i]] for an index that is not negative. *)
Definition index {A : Type} (l : list A) (i : nat) : result A :=
  match l !! i with
  | Some a => Ok a
  | None => Raise IndexError
  end.

(** [l[i]] for any integer: a negative index counts from the end. *)
Definition getitem {A : Type} (l : list A) (i : Z) : result A :=
  let n := Z.of_nat (length l) in
  let j := if (i <? 0)%Z then (i + n)%Z else i in
  if (j <? 0)%Z then Raise IndexError else index l (Z.to_nat j).

(** [sum(l)] *)
Definition sum (l : list R) : R := fold_left Rplus l 0.

(** [max(l)]: a later item replaces the running maximum only when it is
    strictly greater. *)
Definition pymax (l : list R) : result R :=
  match l with
  | [] => Raise ValueError
  | x :: rest => Ok (fold_left (fun m y => if Rlt_dec m y then y else m) rest x)
  end.

(** [min(l)] *)
Definition pymin (l : list R) : result R :=
  match l with
  | [] => Raise ValueError
  | x :: rest => Ok (fold_left (fun m y => if Rlt_dec y m then y else m) rest x)
  end.

(** [len(l)] as a number *)
Definition len {A : Type} (l : list A) : R := INR (length l).

(** ** The statistics report *)

Inductive pyval : Type :=
| VNum (r : R)
| VStr (s : string)
| VId (k : Z)
| VNone.

Definition report : Type := list (string * pyval).

(** [stats[key] = v]: an existing key keeps its place and takes the new
    value, a new key goes to the end. *)
Fixpoint dict_set (stats : report) (key : string) (v : pyval) : report :=
  match stats with
  | [] => [(key, v)]
  | (k, w) :: rest =>
      if String.eqb k key then (k, v) :: rest else (k, w) :: dict_set rest key v
  end.

Fixpoint dict_get (stats : report) (key : string) : option pyval :=
  match stats with
  | [] => None
  | (k, w) :: rest => if String.eqb k key then Some w else dict_get rest key
  end.

Definition keys (stats : report) : list string := map fst stats.

(** [r != 0] and [a < b] as conditions. *)
Definition nonzero (r : R) : bool := if Req_dec_T r 0 then false else true.
Definition Rltb (a b : R) : bool := if Rlt_dec a b then true else false.

(** ** [calc_individual_cell_statistics] *)

Module Individual.

(** The variables the loop over the positions assigns. *)
Record acc : Type := mk_acc {
  distances : list R;
  origin_distances : list R;
  speeds : list R;
  angle_of_direction : list R;
  final_angle : R;
  x : R;
  y : R
}.

Definition init : acc :=
  {| distances := []; origin_distances := []; speeds := [];
     angle_of_direction := []; final_angle := 0; x := 0; y := 0 |}.

(** One round of [for i in range(1, len(data))]. *)
Definition step (data : list point) (time_between_frames : R)
    (origin : point) (i : nat) (a : acc) : result acc :=
  let! cur := index data i in
  let! prev := index data (i - 1) in
  let distance := dist prev cur in
  let! speed := pydiv distance time_between_frames in
  Ok {| distances := distances a ++ [distance];
        origin_distances := origin_distances a ++ [dist origin cur];
        speeds := speeds a ++ [speed];
        angle_of_direction := angle_of_direction a ++ [angle prev cur];
        final_angle :=
          if Nat.eqb i (length data - 1) then angle origin cur
          else final_angle a;
        x := fst cur;
        y := snd cur |}.

Definition loop (data : list point) (time_between_frames : R)
    (origin : point) : result acc :=
  for_each (range 1 (length data)) (step data time_between_frames origin) init.

(** [for i in range(1, len(areas)): change += areas[i] - areas[i-1]] *)
Definition change_loop (areas : list R) : result R :=
  for_each (range 1 (length areas))
    (fun i change =>
       let! a := index areas i in
       let! b := index areas (i - 1) in
       Ok (change + (a - b)))
    0.

End Individual.

Definition compass_brackets : list string :=
  ["E"; "NE"; "N"; "NW"; "W"; "SW"; "S"; "SE"; "E"]%string.

(** [compass_brackets[round(a / 45)]] *)
Definition compass (a : R) : result string :=
  let! q := pydiv a 45 in
  let compass_lookup := pyround q in
  getitem compass_brackets compass_lookup.

Definition calc_individual_cell_statistics (data : option (list point))
    (areas : list R) (time_between_frames : R) (units : string)
  : result report :=
  match data with
  | Some data =>
      let! origin := index data 0 in
      let! a := Individual.loop data time_between_frames origin in
      let stats : report := [] in
      let stats := dict_set stats ("Total Displacement (" ++ units ++ ")")
                     (VNum (sum (Individual.distances a))) in
      let stats := dict_set stats ("Final Distance from Origin (" ++ units ++ ")")
                     (VNum (dist origin (Individual.x a, Individual.y a))) in
      let! m := pymax (Individual.origin_distances a) in
      let stats := dict_set stats ("Maximum Distance from Origin (" ++ units ++ ")")
                     (VNum m) in
      let! m := pydiv (sum (Individual.origin_distances a))
                  (len (Individual.origin_distances a)) in
      let stats := dict_set stats ("Average Distance from Origin (" ++ units ++ ")")
                     (VNum m) in
      let! m := pymax (Individual.distances a) in
      let stats := dict_set stats
                     ("Maximum Distance Traveled in one Interval (" ++ units ++ ")")
                     (VNum m) in
      let! m := pymax (Individual.speeds a) in
      let stats := dict_set stats ("Maximum Speed (" ++ units ++ "/min)") (VNum m) in
      let! m := pydiv (sum (Individual.speeds a)) (len (Individual.speeds a)) in
      let stats := dict_set stats ("Average Speed (" ++ units ++ "/min)") (VNum m) in
      let! m := pydiv (sum (Individual.angle_of_direction a))
                  (len (Individual.angle_of_direction a)) in
      let stats := dict_set stats
                     "Average Angle of Direction from Origin (degrees)" (VNum m) in
      let stats := dict_set stats
                     "Angle of Direction between Origin and Final Point (degrees)"
                     (VNum (Individual.final_angle a)) in
      let! c := compass (Individual.final_angle a) in
      let stats := dict_set stats "Compass Direction Moved" (VStr c) in
      let! m := pymax areas in
      let stats := dict_set stats ("Maximum Size (" ++ units ++ "^2)") (VNum m) in
      let! m := pymin areas in
      let stats := dict_set stats ("Minimum Size (" ++ units ++ "^2)") (VNum m) in
      let! m := pydiv (sum areas) (len areas) in
      let stats := dict_set stats ("Average Size (" ++ units ++ "^2)") (VNum m) in
      let! last := index areas (length areas - 1) in
      let! first := index areas 0 in
      let stats := dict_set stats ("Change in Cell Size (" ++ units ++ "^2)")
                     (VNum (last - first)) in
      let! change := Individual.change_loop areas in
      let! avg_change := pydiv change (len areas) in
      let stats := dict_set stats
                     ("Average Change in Cell Size Between one Interval ("
                        ++ units ++ "^2)")
                     (VNum avg_change) in
      Ok stats
  | None => Raise (Exception "Empy Data Set Given")
  end.

(** ** [calc_culture_cell_statistics] *)

Module Culture.

(** The lists the loop over [positional_data] fills. *)
Record acc : Type := mk_acc {
  displacements : list R;
  final_distances : list R;
  speeds : list R;
  angle_of_direction : list R
}.

Definition init : acc :=
  {| displacements := []; final_distances := []; speeds := [];
     angle_of_direction := [] |}.

(** One round of [for i in range(1, len(data))] for one cell; the state is
    the culture's lists and the cell's own [distances].  The variables [x]
    and [y] are read only in the round that assigns them. *)
Definition step (data : list point) (time_between_frames : R)
    (origin : point) (i : nat) (st : acc * list R) : result (acc * list R) :=
  let (a, distances) := st in
  let! cur := index data i in
  if nonzero (fst cur) || nonzero (snd cur) then
    let! prev := index data (i - 1) in
    let distance := dist prev cur in
    let distances := distances ++ [distance] in
    let! speed := pydiv distance time_between_frames in
    let speeds := speeds a ++ [speed] in
    if Nat.eqb i (length data - 1) then
      Ok ({| displacements := displacements a ++ [sum distances];
             final_distances := final_distances a ++ [dist origin cur];
             speeds := speeds;
             angle_of_direction := angle_of_direction a ++ [angle origin cur] |},
          distances)
    else
      Ok ({| displacements := displacements a;
             final_distances := final_distances a;
             speeds := speeds;
             angle_of_direction := angle_of_direction a |},
          distances)
  else Ok (a, distances).

(** The body of [for key, data in positional_data.items()]. *)
Definition cell (time_between_frames : R) (entry : Z * option (list point))
    (a : acc) : result acc :=
  match snd entry with
  | Some data =>
      let! origin := index data 0 in
      let! st := for_each (range 1 (length data))
                   (step data time_between_frames origin) (a, []) in
      Ok (fst st)
  | None => Ok a
  end.

Definition positions (positional_data : list (Z * option (list point)))
    (time_between_frames : R) : result acc :=
  for_each positional_data (cell time_between_frames) init.

(** The variables the loop over [area_data] assigns. *)
Record sizes : Type := mk_sizes {
  final_sizes : list R;
  growth : list R;
  max_cell_size : R;
  max_cell_id : Z;
  min_cell_size : option R;
  min_cell_id : Z
}.

Definition init_sizes : sizes :=
  {| final_sizes := []; growth := []; max_cell_size := 0; max_cell_id := 0;
     min_cell_size := None; min_cell_id := 0 |}.

(** [next(filter(lambda x: x != 0, value))] *)
Definition next_nonzero (value : list R) : result R :=
  match List.filter nonzero value with
  | a :: _ => Ok a
  | [] => Raise StopIteration
  end.

(** [value.index(v)] *)
Fixpoint list_index (value : list R) (v : R) : result nat :=
  match value with
  | [] => Raise ValueError
  | a :: rest =>
      if Req_dec_T a v then Ok 0%nat
      else let! n := list_index rest v in Ok (S n)
  end.

(** The body of [for key, value in area_data.items()]. *)
Definition area (entry : Z * list R) (s : sizes) : result sizes :=
  let (key, value) := entry in
  let! mn := pymin value in
  let smaller :=
    nonzero mn &&
    match min_cell_size s with
    | None => true
    | Some m => Rltb mn m
    end in
  let! mx := pymax value in
  let larger := Rltb (max_cell_size s) mx in
  let! last := index value (length value - 1) in
  let! v := next_nonzero value in
  let! start_index := list_index value v in
  let! first := index value start_index in
  Ok {| final_sizes := final_sizes s ++ [last];
        growth := growth s ++ [last - first];
        max_cell_size := if larger then mx else max_cell_size s;
        max_cell_id := if larger then key else max_cell_id s;
        min_cell_size := if smaller then Some mn else min_cell_size s;
        min_cell_id := if smaller then key else min_cell_id s |}.

Definition areas (area_data : list (Z * list R)) : result sizes :=
  for_each area_data area init_sizes.

(** The statistics of the branch [if len(displacements) != 0]. *)
Definition movement (a : acc) (s : sizes) (units : string) (stats : report)
  : result report :=
  let! m := pydiv (sum (displacements a)) (len (displacements a)) in
  let stats := dict_set stats ("Average Total Displacement (" ++ units ++ ")")
                 (VNum m) in
  let! m := pymax (displacements a) in
  let stats := dict_set stats
                 ("Max Distance Traveled by one Cell (" ++ units ++ ")") (VNum m) in
  let! m := pymin (displacements a) in
  let stats := dict_set stats
                 ("Min Distance Traveled by one Cell (" ++ units ++ ")") (VNum m) in
  let! m := pydiv (sum (final_distances a)) (len (final_distances a)) in
  let stats := dict_set stats
                 ("Average Final Distance from Origin (" ++ units ++ ")")
                 (VNum m) in
  let! m := pydiv (sum (speeds a)) (len (speeds a)) in
  let stats := dict_set stats ("Average Speed (" ++ units ++ "/min)") (VNum m) in
  let! m := pymax (speeds a) in
  let stats := dict_set stats ("Maximum Recorded Speed (" ++ units ++ "/min)")
                 (VNum m) in
  let! m := pymin (speeds a) in
  let stats := dict_set stats ("Minimum Recorded Speed (" ++ units ++ "/min)")
                 (VNum m) in
  let! avg := pydiv (sum (angle_of_direction a)) (len (angle_of_direction a)) in
  let stats := dict_set stats
                 "Average Angle of Direction between Origin and Final Point (degrees)"
                 (VNum avg) in
  let! c := compass avg in
  let stats := dict_set stats "Average Compass Direction Moved" (VStr c) in
  let! m := pydiv (sum (growth s)) (len (growth s)) in
  let stats := dict_set stats ("Average Change in Cell Size (" ++ units ++ "^2)")
                 (VNum m) in
  Ok stats.

End Culture.

Definition calc_culture_cell_statistics
    (positional_data : list (Z * option (list point)))
    (area_data : list (Z * list R))
    (time_between_frames area_of_frame : R) (units : string) : result report :=
  let! a := Culture.positions positional_data time_between_frames in
  let! s := Culture.areas area_data in
  let stats : report := [] in
  let! stats :=
    if negb (Nat.eqb (length (Culture.displacements a)) 0)
    then Culture.movement a s units stats
    else Ok stats in
  let! m := pydiv (sum (Culture.final_sizes s)) area_of_frame in
  let stats := dict_set stats "Final Frame's Confluency (%)" (VNum m) in
  let stats := dict_set stats ("Largest Cell (" ++ units ++ "^2)")
                 (VNum (Culture.max_cell_size s)) in
  let stats := dict_set stats "Largest Cell's ID" (VId (Culture.max_cell_id s)) in
  let stats := dict_set stats ("Smallest Cell (" ++ units ++ "^2)")
                 (match Culture.min_cell_size s with
                  | Some m => VNum m
                  | None => VNone
                  end) in
  let stats := dict_set stats "Smallest Cell's ID" (VId (Culture.min_cell_id s)) in
  let! m := pydiv (sum (Culture.final_sizes s)) (len (Culture.final_sizes s)) in
  let stats := dict_set stats ("Average Final Size of Cell (" ++ units ++ "^2)")
                 (VNum m) in
  Ok stats.

(** ** [culture_to_csv_file] *)

Module Csv.

Inductive cell : Type :=
| CStr (s : string)
| CId (k : Z)
| CNum (r : R).

(** A file is the list of the rows written to it; the file system maps a
    path to its file. *)
Abbreviation filesystem := (gmap string (list (list cell))).

(** [os.path.exists(filename)] *)
Definition path_exists (fs : filesystem) (filename : string) : bool :=
  match fs !! filename with
  | Some _ => true
  | None => false
  end.

(** [s.endswith(suffix)] *)
Definition endswith (s suffix : string) : bool :=
  let n := String.length s in
  let m := String.length suffix in
  (m <=? n)%nat && String.eqb (substring (n - m) m s) suffix.

(** [open(filename, "w")]: the file is created, or emptied. *)
Definition open_w (filename : string) (fs : filesystem) : filesystem :=
  <[filename := []]> fs.

(** [csvwriter.writerow(row)] *)
Definition writerow (filename : string) (row : list cell) (fs : filesystem)
  : filesystem :=
  alter (fun rows => rows ++ [row]) filename fs.

(** [d[key]] on a dict *)
Fixpoint lookup_key {V : Type} (d : list (Z * V)) (key : Z) : result V :=
  match d with
  | [] => Raise KeyError
  | (k, v) :: rest => if Z.eqb k key then Ok v else lookup_key rest key
  end.

(** The row of one cell: its id, its coordinates flattened, its areas. *)
Definition build_row (id : Z) (coordinates : list point) (sizes : list R)
  : list cell :=
  CId id :: flat_map (fun c => [CNum (fst c); CNum (snd c)]) coordinates
    ++ map CNum sizes.

(** The rounds of [for i in range(0, len(ids))], each ending in a
    [writerow]; an exception leaves the rows written so far. *)
Fixpoint write_rows (filename : string) (ids : list Z)
    (positional_data : list (Z * list point)) (area_data : list (Z * list R))
    (fs : filesystem) : result unit * filesystem :=
  match ids with
  | [] => (Ok tt, fs)
  | id :: rest =>
      match lookup_key positional_data id with
      | Raise e => (Raise e, fs)
      | Ok coordinates =>
          match lookup_key area_data id with
          | Raise e => (Raise e, fs)
          | Ok sizes =>
              write_rows filename rest positional_data area_data
                (writerow filename (build_row id coordinates sizes) fs)
          end
      end
  end.

End Csv.

Definition culture_to_csv_file (filename : string)
    (positional_data : list (Z * list point)) (area_data : list (Z * list R))
    (positional_headers area_headers : option (list string))
    (fs : Csv.filesystem) : result unit * Csv.filesystem :=
  let area_headers := default [] area_headers in
  let positional_headers := default [] positional_headers in
  if negb (Csv.endswith filename ".csv") then
    (Raise (Exception "File must be of type .csv"), fs)
  else if Csv.path_exists fs filename then
    (Raise (Exception "File already exists"), fs)
  else
    let ids := map fst positional_data in
    match (let! id0 := index ids 0 in Csv.lookup_key positional_data id0) with
    | Raise e => (Raise e, fs)
    | Ok first =>
        let num_data_points := length first in
        let fs := Csv.open_w filename fs in
        let fs := Csv.writerow filename
                    (map Csv.CStr (positional_headers ++ area_headers)) fs in
        Csv.write_rows filename ids positional_data area_data fs
    end.

(** * Closed forms and predicates of the statements *)

Definition d0 : point := (0, 0).

(** The value of the loop variables after the rounds [1 .. n-1]. *)
Definition individual_trace (data : list point) (time_between_frames : R)
    (origin : point) (n : nat) : Individual.acc :=
  {| Individual.distances :=
       map (fun i => dist (nth (i - 1) data d0) (nth i data d0)) (range 1 n);
     Individual.origin_distances :=
       map (fun i => dist origin (nth i data d0)) (range 1 n);
     Individual.speeds :=
       map (fun i => dist (nth (i - 1) data d0) (nth i data d0)
                     / time_between_frames) (range 1 n);
     Individual.angle_of_direction :=
       map (fun i => angle (nth (i - 1) data d0) (nth i data d0)) (range 1 n);
     Individual.final_angle :=
       if (2 <=? n)%nat && (n =? length data)%nat
       then angle origin (nth (n - 1) data d0) else 0;
     Individual.x := if (2 <=? n)%nat then fst (nth (n - 1) data d0) else 0;
     Individual.y := if (2 <=? n)%nat then snd (nth (n - 1) data d0) else 0 |}.

(** The value of a computation that does not raise. *)
Definition value_of {A : Type} (d : A) (r : result A) : A :=
  match r with
  | Ok a => a
  | Raise _ => d
  end.

Definition individual_report (data : list point) (areas : list R)
    (tbf : R) (units : string) : report :=
  let origin := nth 0 data d0 in
  let a := individual_trace data tbf origin (length data) in
  [ ("Total Displacement (" ++ units ++ ")",
      VNum (sum (Individual.distances a)));
    ("Final Distance from Origin (" ++ units ++ ")",
      VNum (dist origin (Individual.x a, Individual.y a)));
    ("Maximum Distance from Origin (" ++ units ++ ")",
      VNum (value_of 0 (pymax (Individual.origin_distances a))));
    ("Average Distance from Origin (" ++ units ++ ")",
      VNum (sum (Individual.origin_distances a)
            / len (Individual.origin_distances a)));
    ("Maximum Distance Traveled in one Interval (" ++ units ++ ")",
      VNum (value_of 0 (pymax (Individual.distances a))));
    ("Maximum Speed (" ++ units ++ "/min)",
      VNum (value_of 0 (pymax (Individual.speeds a))));
    ("Average Speed (" ++ units ++ "/min)",
      VNum (sum (Individual.speeds a) / len (Individual.speeds a)));
    ("Average Angle of Direction from Origin (degrees)",
      VNum (sum (Individual.angle_of_direction a)
            / len (Individual.angle_of_direction a)));
    ("Angle of Direction between Origin and Final Point (degrees)",
      VNum (Individual.final_angle a));
    ("Compass Direction Moved",
      VStr (value_of EmptyString (compass (Individual.final_angle a))));
    ("Maximum Size (" ++ units ++ "^2)", VNum (value_of 0 (pymax areas)));
    ("Minimum Size (" ++ units ++ "^2)", VNum (value_of 0 (pymin areas)));
    ("Average Size (" ++ units ++ "^2)", VNum (sum areas / len areas));
    ("Change in Cell Size (" ++ units ++ "^2)",
      VNum (nth (length areas - 1) areas 0 - nth 0 areas 0));
    ("Average Change in Cell Size Between one Interval (" ++ units ++ "^2)",
      VNum ((nth (length areas - 1) areas 0 - nth 0 areas 0) / len areas))
  ]%string.

(** The test [data[i][0] != 0 or data[i][1] != 0]. *)
Definition tracked (p : point) : bool := nonzero (fst p) || nonzero (snd p).

(** A cell records a displacement when it has two frames or more and its
    last frame is not the placeholder. *)
Definition produces_displacement (data : list point) : bool :=
  (2 <=? length data)%nat && tracked (nth (length data - 1) data d0).

(** The state of the loop of one cell after the rounds [1 .. n-1], started
    with the culture's lists [a]. *)
Definition cell_trace (data : list point) (tbf : R) (origin : point)
    (a : Culture.acc) (n : nat) : Culture.acc * list R :=
  let rounds := List.filter (fun i => tracked (nth i data d0)) (range 1 n) in
  let distances :=
    map (fun i => dist (nth (i - 1) data d0) (nth i data d0)) rounds in
  let final :=
    (n =? length data)%nat && produces_displacement data in
  ({| Culture.displacements :=
        Culture.displacements a ++ (if final then [sum distances] else []);
      Culture.final_distances :=
        Culture.final_distances a
        ++ (if final then [dist origin (nth (n - 1) data d0)] else []);
      Culture.speeds :=
        Culture.speeds a ++ map (fun d => d / tbf) distances;
      Culture.angle_of_direction :=
        Culture.angle_of_direction a
        ++ (if final then [angle origin (nth (n - 1) data d0)] else []) |},
   distances).

(** Whether the entry of a cell makes the loop record a displacement. *)
Definition moves (entry : Z * option (list point)) : bool :=
  match snd entry with
  | Some data => produces_displacement data
  | None => false
  end.

(** What the loop over the cells keeps true of the culture's lists. *)
Definition acc_ok (a : Culture.acc) : Prop :=
  length (Culture.final_distances a) = length (Culture.displacements a) /\
  length (Culture.angle_of_direction a) = length (Culture.displacements a) /\
  (Culture.displacements a <> [] -> Culture.speeds a <> []) /\
  Forall (fun x => 0 <= x <= 360) (Culture.angle_of_direction a).

(** A series with a measured area: some value of it is not zero. *)
Definition measured (value : list R) : Prop := exists v, In v value /\ v <> 0.

Definition cell_max (entry : Z * list R) : R := value_of 0 (pymax (snd entry)).
Definition cell_min (entry : Z * list R) : R := value_of 0 (pymin (snd entry)).

(** The state after the round of one cell; [first] is the first value of the
    series that is not zero. *)
Definition area_next (entry : Z * list R) (s : Culture.sizes) (first : R)
  : Culture.sizes :=
  let value := snd entry in
  let last := nth (length value - 1) value 0 in
  let smaller :=
    nonzero (cell_min entry) &&
    match Culture.min_cell_size s with
    | None => true
    | Some m => Rltb (cell_min entry) m
    end in
  let larger := Rltb (Culture.max_cell_size s) (cell_max entry) in
  {| Culture.final_sizes := Culture.final_sizes s ++ [last];
     Culture.growth := Culture.growth s ++ [last - first];
     Culture.max_cell_size :=
       if larger then cell_max entry else Culture.max_cell_size s;
     Culture.max_cell_id := if larger then fst entry else Culture.max_cell_id s;
     Culture.min_cell_size :=
       if smaller then Some (cell_min entry) else Culture.min_cell_size s;
     Culture.min_cell_id := if smaller then fst entry else Culture.min_cell_id s |}.

(** The largest cell among the cells seen: the first cell, in the order of
    the loop, whose maximum is the greatest, when that is above the initial
    size 0. *)
Definition largest_of (seen : list (Z * list R)) (size : R) (id : Z) : Prop :=
  (size = 0 /\ id = 0%Z /\ Forall (fun c => cell_max c <= 0) seen) \/
  (exists before e after,
     seen = before ++ e :: after /\
     size = cell_max e /\ id = fst e /\ 0 < cell_max e /\
     Forall (fun c => cell_max c < cell_max e) before /\
     Forall (fun c => cell_max c <= cell_max e) after).

(** The smallest cell among the cells seen: cells whose minimum is 0 are
    passed over; of the others, the first whose minimum is the least. *)
Definition smallest_of (seen : list (Z * list R)) (size : option R) (id : Z)
  : Prop :=
  (size = None /\ id = 0%Z /\ Forall (fun c => cell_min c = 0) seen) \/
  (exists before e after,
     seen = before ++ e :: after /\
     size = Some (cell_min e) /\ id = fst e /\ cell_min e <> 0 /\
     Forall (fun c => cell_min c = 0 \/ cell_min e < cell_min c) before /\
     Forall (fun c => cell_min c = 0 \/ cell_min e <= cell_min c) after).

Definition sizes_ok (seen : list (Z * list R)) (s : Culture.sizes) : Prop :=
  largest_of seen (Culture.max_cell_size s) (Culture.max_cell_id s) /\
  smallest_of seen (Culture.min_cell_size s) (Culture.min_cell_id s) /\
  length (Culture.final_sizes s) = length seen /\
  length (Culture.growth s) = length seen.

Definition culture_movement_report (a : Culture.acc) (s : Culture.sizes)
    (units : string) : report :=
  let avg := sum (Culture.angle_of_direction a)
             / len (Culture.angle_of_direction a) in
  [ ("Average Total Displacement (" ++ units ++ ")",
      VNum (sum (Culture.displacements a) / len (Culture.displacements a)));
    ("Max Distance Traveled by one Cell (" ++ units ++ ")",
      VNum (value_of 0 (pymax (Culture.displacements a))));
    ("Min Distance Traveled by one Cell (" ++ units ++ ")",
      VNum (value_of 0 (pymin (Culture.displacements a))));
    ("Average Final Distance from Origin (" ++ units ++ ")",
      VNum (sum (Culture.final_distances a) / len (Culture.final_distances a)));
    ("Average Speed (" ++ units ++ "/min)",
      VNum (sum (Culture.speeds a) / len (Culture.speeds a)));
    ("Maximum Recorded Speed (" ++ units ++ "/min)",
      VNum (value_of 0 (pymax (Culture.speeds a))));
    ("Minimum Recorded Speed (" ++ units ++ "/min)",
      VNum (value_of 0 (pymin (Culture.speeds a))));
    ("Average Angle of Direction between Origin and Final Point (degrees)",
      VNum avg);
    ("Average Compass Direction Moved",
      VStr (value_of EmptyString (compass avg)));
    ("Average Change in Cell Size (" ++ units ++ "^2)",
      VNum (sum (Culture.growth s) / len (Culture.growth s)))
  ]%string.

Definition culture_fixed_report (s : Culture.sizes) (area_of_frame : R)
    (units : string) : report :=
  [ ("Final Frame's Confluency (%)",
      VNum (sum (Culture.final_sizes s) / area_of_frame));
    ("Largest Cell (" ++ units ++ "^2)", VNum (Culture.max_cell_size s));
    ("Largest Cell's ID", VId (Culture.max_cell_id s));
    ("Smallest Cell (" ++ units ++ "^2)",
      match Culture.min_cell_size s with
      | Some m => VNum m
      | None => VNone
      end);
    ("Smallest Cell's ID", VId (Culture.min_cell_id s));
    ("Average Final Size of Cell (" ++ units ++ "^2)",
      VNum (sum (Culture.final_sizes s) / len (Culture.final_sizes s)))
  ]%string.

Definition culture_report (a : Culture.acc) (s : Culture.sizes)
    (area_of_frame : R) (units : string) : report :=
  (if negb (Nat.eqb (length (Culture.displacements a)) 0)
   then culture_movement_report a s units else [])
  ++ culture_fixed_report s area_of_frame units.

(** The labels of the branch [if len(displacements) != 0]. *)
Definition movement_keys (units : string) : list string :=
  [ "Average Total Displacement (" ++ units ++ ")";
    "Max Distance Traveled by one Cell (" ++ units ++ ")";
    "Min Distance Traveled by one Cell (" ++ units ++ ")";
    "Average Final Distance from Origin (" ++ units ++ ")";
    "Average Speed (" ++ units ++ "/min)";
    "Maximum Recorded Speed (" ++ units ++ "/min)";
    "Minimum Recorded Speed (" ++ units ++ "/min)";
    "Average Angle of Direction between Origin and Final Point (degrees)";
    "Average Compass Direction Moved";
    "Average Change in Cell Size (" ++ units ++ "^2)" ]%string.

(** The labels written on every call. *)
Definition fixed_keys (units : string) : list string :=
  [ "Final Frame's Confluency (%)";
    "Largest Cell (" ++ units ++ "^2)";
    "Largest Cell's ID";
    "Smallest Cell (" ++ units ++ "^2)";
    "Smallest Cell's ID";
    "Average Final Size of Cell (" ++ units ++ "^2)" ]%string.



(** ** [merge] *)

(** [[(list1[i], list2[i]) for i in range(0, len(list1))]] *)
Definition merge {A B : Type} (list1 : list A) (list2 : list B)
  : result (list (A * B)) :=
  for_each (range 0 (length list1))
    (fun i merged_list =>
       let! a := index list1 i in
       let! b := index list2 i in
       Ok (merged_list ++ [(a, b)]))
    [].

(** The labels of the single-cell report, in the order they are written. *)
Definition individual_keys (units : string) : list string :=
  [ "Total Displacement (" ++ units ++ ")";
    "Final Distance from Origin (" ++ units ++ ")";
    "Maximum Distance from Origin (" ++ units ++ ")";
    "Average Distance from Origin (" ++ units ++ ")";
    "Maximum Distance Traveled in one Interval (" ++ units ++ ")";
    "Maximum Speed (" ++ units ++ "/min)";
    "Average Speed (" ++ units ++ "/min)";
    "Average Angle of Direction from Origin (degrees)";
    "Angle of Direction between Origin and Final Point (degrees)";
    "Compass Direction Moved";
    "Maximum Size (" ++ units ++ "^2)";
    "Minimum Size (" ++ units ++ "^2)";
    "Average Size (" ++ units ++ "^2)";
    "Change in Cell Size (" ++ units ++ "^2)";
    "Average Change in Cell Size Between one Interval (" ++ units ++ "^2)"
  ]%string.

(** The area of the last frame of a cell, and its growth since the first
    area that is not zero. *)
Definition last_area (entry : Z * list R) : R :=
  nth (length (snd entry) - 1) (snd entry) 0.

Definition first_measured (entry : Z * list R) : R :=
  hd 0 (List.filter nonzero (snd entry)).

Definition growth_of (entry : Z * list R) : R :=
  last_area entry - first_measured entry.

(** A cell whose trajectory is not None. *)
Definition has_trajectory (entry : Z * option (list point)) : bool :=
  match snd entry with
  | Some _ => true
  | None => false
  end.

(** ** [individual_to_csv_file] *)

(** The row of frame [i]: [data[key][i]] for every key, in the order of the
    keys.  The value [data[key]] of a key taken from [data.keys()] is the
    value of its entry. *)
Fixpoint frame_row (data : list (string * list R)) (i : nat)
  : result (list Csv.cell) :=
  match data with
  | [] => Ok []
  | (key, column) :: rest =>
      let! v := index column i in
      let! row := frame_row rest i in
      Ok (Csv.CNum v :: row)
  end.

(** The rounds of [for i in range(0, num_data_points)], each ending in a
    [writerow]; an exception leaves the rows written so far. *)
Fixpoint write_frames (filename : string) (data : list (string * list R))
    (frames : list nat) (fs : Csv.filesystem) : result unit * Csv.filesystem :=
  match frames with
  | [] => (Ok tt, fs)
  | i :: rest =>
      match frame_row data i with
      | Raise e => (Raise e, fs)
      | Ok row => write_frames filename data rest (Csv.writerow filename row fs)
      end
  end.

Definition individual_to_csv_file (filename : string)
    (data : list (string * list R)) (fs : Csv.filesystem)
  : result unit * Csv.filesystem :=
  if negb (Csv.endswith filename ".csv") then
    (Raise (Exception "File must be of type .csv"), fs)
  else
    let headers := map fst data in
    match (let! key := index headers 0 in
           match data with
           | (_, column) :: _ => Ok column
           | [] => Raise KeyError
           end) with
    | Raise e => (Raise e, fs)
    | Ok first =>
        let num_data_points := length first in
        if Csv.path_exists fs filename then
          write_frames filename data (range 0 num_data_points) fs
        else
          let fs := Csv.open_w filename fs in
          let fs := Csv.writerow filename (map Csv.CStr headers) fs in
          write_frames filename data (range 0 num_data_points) fs
    end.

(** The rows of a table whose columns have [n] values or more. *)
Definition frame_rows (data : list (string * list R)) (n : nat)
  : list (list Csv.cell) :=
  map (fun i => map (fun entry => Csv.CNum (nth i (snd entry) 0)) data)
    (range 0 n).

(** The rows [culture_to_csv_file] writes for the ids. *)
Definition culture_rows (positional_data : list (Z * list point))
    (area_data : list (Z * list R)) (ids : list Z) : list (list Csv.cell) :=
  map (fun id =>
         Csv.build_row id (value_of [] (Csv.lookup_key positional_data id))
           (value_of [] (Csv.lookup_key area_data id)))
    ids.

(** The key has an entry in the dict. *)
Definition has_key {V : Type} (d : list (Z * V)) (key : Z) : Prop :=
  exists v, Csv.lookup_key d key = Ok v.

(** ** The spreadsheet exports *)

Module Excel.

Local Open Scope nat_scope.

(** A call [sheet.cell(row, col, value)].  A sheet is modelled by the calls
    that fill it, in their order. *)
Definition write : Type := nat * nat * pyval.

(** A call [wb.save(filename)]: the file, the name given to the sheet that
    was filled, and the calls that filled it.  In each function the sheet is
    empty when the loops start: it is the sheet returned by [create_sheet],
    or the first sheet of a new workbook.  The workbook around the sheet is
    not modelled. *)
Record saved : Type := mk_saved {
  file : string;
  sheetname : option string;
  cells : list write
}.

(** [filename.endswith(".xls") or filename.endswith(".xlsx")] *)
Definition extension_ok (filename : string) : bool :=
  Csv.endswith filename ".xls" || Csv.endswith filename ".xlsx".

(** [for i in range(0, len(headers)): sheet.cell(row, col + i, headers[i])] *)
Fixpoint header_cells (row col : nat) (headers : list string) : list write :=
  match headers with
  | [] => []
  | h :: rest => (row, col, VStr h) :: header_cells row (col + 1) rest
  end.



(** The loop over the areas of one cell. *)
Fixpoint size_cells (row col : nat) (value : list R) : list write :=
  match value with
  | [] => []
  | val :: rest => (row, col, VNum val) :: size_cells row (col + 1) rest
  end.

Definition growth_formula (current_row current_col : nat) : string :=
  "=INDIRECT(ADDRESS(" ++ pretty current_row ++ ", "
    ++ pretty (current_col - 1)%nat
    ++ ")) - INDEX(INDIRECT(ADDRESS(" ++ pretty current_row
    ++ ", 2)):INDIRECT(ADDRESS(" ++ pretty current_row ++ ", "
    ++ pretty current_col
    ++ ")),MATCH(TRUE,INDEX((INDIRECT(ADDRESS(" ++ pretty current_row
    ++ ", 2)):INDIRECT(ADDRESS(" ++ pretty current_row ++ ", "
    ++ pretty current_col ++ "))<>0),0),0))".

Definition change_formula (current_row current_col : nat) : string :=
  "=_xlfn.AGGREGATE(14, 6, INDIRECT(ADDRESS(" ++ pretty current_row
    ++ ", 2)):INDIRECT(ADDRESS(" ++ pretty current_row ++ ", "
    ++ pretty (current_col - 2)%nat
    ++ "))-INDIRECT(ADDRESS(" ++ pretty current_row
    ++ ", 3)):INDIRECT(ADDRESS(" ++ pretty current_row ++ ", "
    ++ pretty (current_col - 1)%nat ++ ")), 1)".

(** The loop over the cells of [area_to_excel_file]: the id, the areas, and
    the two formulas in the two columns after the last area. *)
Fixpoint area_rows (row : nat) (data : list (Z * list R)) : list write :=
  match data with
  | [] => []
  | (key, value) :: rest =>
      let current_col := (2 + length value)%nat in
      (row, 1%nat, VId key) :: size_cells row 2 value
      ++ [ (row, current_col, VStr (growth_formula row current_col));
           (row, (current_col + 1)%nat,
            VStr (change_formula row (current_col + 1))) ]
      ++ area_rows (row + 1) rest
  end.





End Excel.


Definition area_to_excel_file (filename : string)
    (data : list (Z * list R)) (headers : option (list string))
    (sheetname : option string) : result Excel.saved :=
  let headers := default [] headers in
  if negb (Excel.extension_ok filename) then
    Raise (Exception "File must be of type .xls or .xlsx")
  else
    Ok {| Excel.file := filename;
          Excel.sheetname := sheetname;
          Excel.cells :=
            Excel.header_cells 1 1 headers ++ Excel.area_rows 2 data |}.




(** * Properties *)

(** ** The result monad and loops *)

Lemma for_each_app {A St : Type} (l1 l2 : list A)
    (body : A -> St -> result St) (s : St) :
  for_each (l1 ++ l2) body s =
  let! s' := for_each l1 body s in for_each l2 body s'.
Proof.
  revert s; induction l1 as [|a l1 IH]; intros s; simpl; [reflexivity|].
  destruct (body a s); simpl; auto.
Qed.

Lemma range_snoc (lo hi : nat) :
  (lo <= hi)%nat -> range lo (S hi) = range lo hi ++ [hi].
Proof.
  intros H. unfold range.
  replace (S hi - lo)%nat with (S (hi - lo)) by lia.
  rewrite seq_S. do 2 f_equal. lia.
Qed.

Lemma range_length (lo hi : nat) : length (range lo hi) = (hi - lo)%nat.
Proof. unfold range. apply length_seq. Qed.

Lemma index_lt {A : Type} (l : list A) (i : nat) (d : A) :
  (i < length l)%nat -> index l i = Ok (nth i l d).
Proof.
  intros H. unfold index.
  destruct (lookup_lt_is_Some_2 l i H) as [a Ha].
  rewrite Ha. f_equal. symmetry. now apply nth_lookup_Some.
Qed.

Lemma index_ge {A : Type} (l : list A) (i : nat) :
  (length l <= i)%nat -> index l i = Raise IndexError.
Proof.
  intros H. unfold index. now rewrite (lookup_ge_None_2 l i H).
Qed.

Lemma pydiv_ok (a b : R) : b <> 0 -> pydiv a b = Ok (a / b).
Proof. intros H. unfold pydiv. destruct (Req_dec_T b 0); [contradiction|reflexivity]. Qed.

Lemma pydiv_zero (a : R) : pydiv a 0 = Raise ZeroDivisionError.
Proof. unfold pydiv. destruct (Req_dec_T 0 0); [reflexivity|contradiction]. Qed.

Lemma len_nonzero {A : Type} (l : list A) : l <> [] -> len l <> 0.
Proof.
  intros H. unfold len. destruct l; [contradiction|].
  apply not_0_INR. simpl. lia.
Qed.

(** ** Sums, maxima and minima *)

Lemma fold_left_Rplus (l : list R) (a : R) :
  fold_left Rplus l a = a + fold_left Rplus l 0.
Proof.
  revert a; induction l as [|b l IH]; intros a; simpl; [lra|].
  rewrite (IH (a + b)), (IH (0 + b)). lra.
Qed.

Lemma sum_nil : sum [] = 0.
Proof. reflexivity. Qed.

Lemma sum_cons (a : R) (l : list R) : sum (a :: l) = a + sum l.
Proof. unfold sum; simpl. rewrite fold_left_Rplus. lra. Qed.


Lemma fold_max_spec (l : list R) (a : R) :
  let m := fold_left (fun m y => if Rlt_dec m y then y else m) l a in
  In m (a :: l) /\ forall b, In b (a :: l) -> b <= m.
Proof.
  revert a; induction l as [|c l IH]; intros a; simpl.
  - split; [now left|]. intros b [<-|[]]. lra.
  - destruct (IH (if Rlt_dec a c then c else a)) as [Hin Hle].
    simpl in Hin, Hle. split.
    + destruct Hin as [Hin|Hin]; [|now right; right].
      rewrite <- Hin. destruct (Rlt_dec a c); [right; now left|now left].
    + intros b [Hb|[Hb|Hb]]; [| |apply Hle; now right]; subst b;
        specialize (Hle _ (or_introl eq_refl));
        destruct (Rlt_dec a c); lra.
Qed.


Lemma pymax_spec (l : list R) :
  l <> [] ->
  exists m, pymax l = Ok m /\ In m l /\ forall b, In b l -> b <= m.
Proof.
  destruct l as [|a l]; [contradiction|]. intros _.
  eexists; split; [reflexivity|]. apply fold_max_spec.
Qed.


(** ** Angles and the compass table *)

Lemma pymod_range (a b : R) : 0 < b -> 0 <= pymod a b < b.
Proof.
  intros Hb. unfold pymod.
  destruct (Zfloor_bound (a / b)) as [Hlo Hhi].
  assert (Ha : a = b * (a / b)) by (field; lra).
  split.
  - assert (b * IZR (Zfloor (a / b)) <= b * (a / b))
      by (apply Rmult_le_compat_l; lra).
    lra.
  - assert (b * (a / b) < b * (IZR (Zfloor (a / b)) + 1))
      by (apply Rmult_lt_compat_l; lra).
    lra.
Qed.

Lemma pymod_zero (b : R) : pymod 0 b = 0.
Proof.
  unfold pymod. replace (0 / b) with 0 by (unfold Rdiv; ring).
  rewrite (Zfloor_eq 0 0) by lra. ring.
Qed.

Lemma angle_range (p q : point) : 0 < angle p q <= 360.
Proof.
  unfold angle.
  pose proof (pymod_range
    (atan2 (snd q - snd p) (fst q - fst p) * (180 / PI)) 360) as H.
  lra.
Qed.

Lemma atan2_east (dx : R) : 0 < dx -> atan2 0 dx = 0.
Proof.
  intros H. unfold atan2. destruct (Rlt_dec 0 dx); [|contradiction].
  replace (0 / dx) with 0 by (unfold Rdiv; ring). apply atan_0.
Qed.

Lemma atan2_origin : atan2 0 0 = 0.
Proof.
  unfold atan2. destruct (Rlt_dec 0 0); [lra|]. reflexivity.
Qed.

(** A step due east, or a step that does not move, has direction 360. *)
Lemma angle_east (p q : point) :
  snd q = snd p -> fst p <= fst q -> angle p q = 360.
Proof.
  intros Hy Hx. unfold angle.
  replace (snd q - snd p) with 0 by lra.
  assert (E : atan2 0 (fst q - fst p) = 0).
  { destruct (Req_dec_T (fst q) (fst p)) as [e|n].
    - replace (fst q - fst p) with 0 by lra. apply atan2_origin.
    - apply atan2_east. lra. }
  rewrite E. replace (0 * (180 / PI)) with 0 by ring.
  rewrite pymod_zero. ring.
Qed.

Lemma pyround_floor (q : R) :
  (Zfloor q <= pyround q <= Zfloor q + 1)%Z /\
  (pyround q = (Zfloor q + 1)%Z -> IZR (Zfloor q) + 1 / 2 <= q).
Proof.
  unfold pyround.
  destruct (Rlt_dec (q - IZR (Zfloor q)) (1 / 2)) as [H1|H1].
  - split; lia.
  - destruct (Rlt_dec (1 / 2) (q - IZR (Zfloor q))) as [H2|H2].
    + split; [lia|]. intros _. lra.
    + destruct (Z.even (Zfloor q)); (split; [lia|]); intros _; lra.
Qed.

Lemma pyround_IZR (n : Z) : pyround (IZR n) = n.
Proof.
  unfold pyround. rewrite (Zfloor_eq n (IZR n)) by lra.
  destruct (Rlt_dec (IZR n - IZR n) (1 / 2)); [reflexivity|lra].
Qed.

Lemma pyround_bounds (q : R) (lo hi : Z) :
  IZR lo <= q <= IZR hi -> (lo <= pyround q <= hi)%Z.
Proof.
  intros [Hlo Hhi].
  destruct (pyround_floor q) as [[H1 H2] H3].
  pose proof (Zfloor_lub lo q Hlo) as Hf.
  destruct (Zfloor_bound q) as [Hb1 Hb2].
  split; [lia|].
  destruct (Z.eq_dec (pyround q) (Zfloor q + 1)%Z) as [e|n].
  - specialize (H3 e).
    assert (IZR (Zfloor q) < IZR hi) by lra.
    apply lt_IZR in H. lia.
  - assert (IZR (Zfloor q) <= IZR hi) by lra.
    apply le_IZR in H. lia.
Qed.

Lemma getitem_in_bounds {A : Type} (l : list A) (i : Z) (d : A) :
  (0 <= i < Z.of_nat (length l))%Z -> getitem l i = Ok (nth (Z.to_nat i) l d).
Proof.
  intros H. unfold getitem.
  destruct (i <? 0)%Z eqn:E; [apply Z.ltb_lt in E; lia|].
  rewrite E. apply index_lt. lia.
Qed.

Lemma compass_in_table (a : R) :
  0 <= a <= 360 ->
  (0 <= pyround (a / 45) < Z.of_nat (length compass_brackets))%Z /\
  exists c, compass a = Ok c /\ In c compass_brackets.
Proof.
  intros Ha.
  assert (Hq : (0 <= pyround (a / 45) <= 8)%Z).
  { apply pyround_bounds. split.
    - apply Rmult_le_reg_r with 45; [lra|]. unfold Rdiv.
      rewrite Rmult_assoc, Rinv_l by lra. lra.
    - apply Rmult_le_reg_r with 45; [lra|]. unfold Rdiv.
      rewrite Rmult_assoc, Rinv_l by lra. lra. }
  assert (Hlen : length compass_brackets = 9%nat) by reflexivity.
  split; [lia|].
  unfold compass. rewrite pydiv_ok by lra. cbn [bind].
  rewrite (getitem_in_bounds _ _ EmptyString) by lia.
  eexists; split; [reflexivity|].
  apply nth_In. lia.
Qed.

Lemma compass_multiple (n : Z) :
  compass (45 * IZR n) = getitem compass_brackets n.
Proof.
  unfold compass. rewrite pydiv_ok by lra. cbn [bind].
  replace (45 * IZR n / 45) with (IZR n) by (field; lra).
  now rewrite pyround_IZR.
Qed.

(** ** The loop of [calc_individual_cell_statistics] in closed form *)

Lemma individual_loop_upto (data : list point) (tbf : R) (origin : point)
    (n : nat) :
  tbf <> 0 -> (n <= length data)%nat ->
  for_each (range 1 n) (Individual.step data tbf origin) Individual.init
  = Ok (individual_trace data tbf origin n).
Proof.
  intros Ht. induction n as [|n IH]; intros Hn; [reflexivity|].
  destruct n as [|n]; [reflexivity|].
  rewrite range_snoc by lia. rewrite for_each_app, IH by lia.
  cbn [bind for_each]. unfold Individual.step.
  rewrite (index_lt data (S n) d0) by lia.
  rewrite (index_lt data (S n - 1) d0) by lia.
  cbn [bind]. rewrite pydiv_ok by assumption. cbn [bind].
  f_equal. unfold individual_trace.
  rewrite (range_snoc 1 (S n)) by lia. rewrite !map_app.
  cbn [Individual.distances Individual.origin_distances Individual.speeds
       Individual.angle_of_direction Individual.final_angle map].
  replace (S (S n) - 1)%nat with (S n) by lia.
  replace (2 <=? S (S n))%nat with true by (symmetry; apply Nat.leb_le; lia).
  cbn [andb].
  f_equal.
  destruct (Nat.eqb_spec (S n) (length data - 1));
    destruct (Nat.eqb_spec (S (S n)) (length data)); try lia; [reflexivity|].
  destruct (Nat.eqb_spec (S n) (length data)); [lia|].
  now rewrite andb_false_r.
Qed.

Lemma individual_loop_spec (data : list point) (tbf : R) (origin : point) :
  tbf <> 0 ->
  Individual.loop data tbf origin
  = Ok (individual_trace data tbf origin (length data)).
Proof. intros Ht. apply individual_loop_upto; [assumption|lia]. Qed.

(** The loop over the areas adds up to the last area minus the first. *)
Lemma change_loop_upto (areas : list R) (n : nat) :
  (1 <= n <= length areas)%nat ->
  for_each (range 1 n)
    (fun i change =>
       let! a := index areas i in
       let! b := index areas (i - 1) in
       Ok (change + (a - b))) 0
  = Ok (nth (n - 1) areas 0 - nth 0 areas 0).
Proof.
  induction n as [|n IH]; intros Hn; [lia|].
  destruct n as [|n].
  - cbn. f_equal. lra.
  - rewrite range_snoc by lia. rewrite for_each_app, IH by lia.
    cbn [bind for_each].
    rewrite (index_lt areas (S n) 0) by lia.
    rewrite (index_lt areas (S n - 1) 0) by lia.
    cbn [bind]. f_equal.
    replace (S (S n) - 1)%nat with (S n) by lia. lra.
Qed.

Lemma change_loop_spec (areas : list R) :
  areas <> [] ->
  Individual.change_loop areas
  = Ok (nth (length areas - 1) areas 0 - nth 0 areas 0).
Proof.
  intros H. unfold Individual.change_loop. apply change_loop_upto.
  destruct areas; [contradiction|]. simpl. lia.
Qed.

(** ** The report of [calc_individual_cell_statistics] *)

Lemma pymax_value (l : list R) : l <> [] -> pymax l = Ok (value_of 0 (pymax l)).
Proof. destruct l; [contradiction|reflexivity]. Qed.

Lemma pymin_value (l : list R) : l <> [] -> pymin l = Ok (value_of 0 (pymin l)).
Proof. destruct l; [contradiction|reflexivity]. Qed.

Lemma compass_value (a : R) :
  0 <= a <= 360 -> compass a = Ok (value_of EmptyString (compass a)).
Proof.
  intros H. destruct (compass_in_table a H) as [_ [c [Hc _]]].
  now rewrite Hc.
Qed.

Lemma map_range_nonempty {A : Type} (f : nat -> A) (n : nat) :
  (2 <= n)%nat -> map f (range 1 n) <> [].
Proof.
  intros H E. apply (f_equal (@length A)) in E.
  rewrite length_map, range_length in E. simpl in E. lia.
Qed.

Lemma individual_final_angle_range (data : list point) (tbf : R) (origin : point) :
  0 <= Individual.final_angle (individual_trace data tbf origin (length data))
    <= 360.
Proof.
  cbn [individual_trace Individual.final_angle].
  destruct ((2 <=? length data)%nat && (length data =? length data)%nat).
  - pose proof (angle_range origin (nth (length data - 1) data d0)). lra.
  - lra.
Qed.

Ltac dict_compute :=
  cbn [dict_set dict_get keys map fst snd String.eqb Ascii.eqb Bool.eqb
       String.append andb];
  rewrite ?String.eqb_refl.

Lemma calc_individual_returns (data : list point) (areas : list R)
    (tbf : R) (units : string) :
  (2 <= length data)%nat -> areas <> [] -> tbf <> 0 ->
  calc_individual_cell_statistics (Some data) areas tbf units
  = Ok (individual_report data areas tbf units).
Proof.
  intros Hd Ha Ht. unfold calc_individual_cell_statistics.
  rewrite (index_lt data 0 d0) by lia. cbn [bind].
  rewrite individual_loop_spec by assumption. cbn [bind].
  set (a := individual_trace data tbf (nth 0 data d0) (length data)).
  assert (Hlen : (0 < length areas)%nat)
    by (destruct areas; [contradiction|simpl; lia]).
  rewrite (pymax_value (Individual.origin_distances a))
    by (now apply map_range_nonempty).
  cbn [bind].
  rewrite (pydiv_ok _ (len (Individual.origin_distances a)))
    by (apply len_nonzero; now apply map_range_nonempty).
  cbn [bind].
  rewrite (pymax_value (Individual.distances a))
    by (now apply map_range_nonempty).
  cbn [bind].
  rewrite (pymax_value (Individual.speeds a))
    by (now apply map_range_nonempty).
  cbn [bind].
  rewrite (pydiv_ok _ (len (Individual.speeds a)))
    by (apply len_nonzero; now apply map_range_nonempty).
  cbn [bind].
  rewrite (pydiv_ok _ (len (Individual.angle_of_direction a)))
    by (apply len_nonzero; now apply map_range_nonempty).
  cbn [bind].
  rewrite (compass_value (Individual.final_angle a))
    by apply individual_final_angle_range.
  cbn [bind].
  rewrite (pymax_value areas), (pymin_value areas) by assumption.
  cbn [bind].
  rewrite (pydiv_ok _ (len areas)) by (now apply len_nonzero).
  cbn [bind].
  rewrite (index_lt areas (length areas - 1) 0) by lia.
  rewrite (index_lt areas 0 0) by lia.
  cbn [bind].
  rewrite change_loop_spec by assumption. cbn [bind].
  rewrite (pydiv_ok _ (len areas)) by (now apply len_nonzero).
  cbn [bind].
  reflexivity.
Qed.

(** ** Single-cell statistics *)

Lemma dist_nonneg (p q : point) : 0 <= dist p q.
Proof. unfold dist. apply sqrt_pos. Qed.

Lemma sum_ge_member (l : list R) (a : R) :
  Forall (fun b => 0 <= b) l -> In a l -> a <= sum l.
Proof.
  induction 1 as [|b l Hb Hl IH]; intros Hin; [destruct Hin|].
  rewrite sum_cons.
  assert (0 <= sum l).
  { clear -Hl. induction Hl as [|c l Hc Hl IH]; [rewrite sum_nil; lra|].
    rewrite sum_cons. lra. }
  destruct Hin as [->|Hin]; [lra|]. specialize (IH Hin). lra.
Qed.

Lemma lookup_map_range {A : Type} (f : nat -> A) (n i : nat) :
  (1 <= i < n)%nat -> map f (range 1 n) !! (i - 1)%nat = Some (f i).
Proof.
  intros H. rewrite list_lookup_fmap. unfold range.
  rewrite lookup_seq_lt by lia. simpl. do 2 f_equal. lia.
Qed.

Lemma in_map_range {A : Type} (f : nat -> A) (n i : nat) :
  (1 <= i < n)%nat -> In (f i) (map f (range 1 n)).
Proof.
  intros H. apply in_map. unfold range. apply in_seq. lia.
Qed.

(** C3, absent trajectory against empty trajectory: the call with [None]
    raises the exception of the [else] branch, "Empy Data Set Given"; the call
    with the empty list passes the test [data is not None] and raises
    [IndexError] at [data[0][0]], a different exception. *)
Theorem empty_trajectory_raises_IndexError
    (areas : list R) (tbf : R) (units : string) :
  calc_individual_cell_statistics None areas tbf units
    = Raise (Exception "Empy Data Set Given") /\
  calc_individual_cell_statistics (Some []) areas tbf units = Raise IndexError /\
  IndexError <> Exception "Empy Data Set Given".
Proof. repeat split. discriminate. Qed.

(** C4 as stated fails: a step due east has direction exactly 360, outside
    the half-open interval [0, 360). *)
Lemma step_angle_reaches_360 :
  exists a ang,
    Individual.loop [(1, 1); (2, 1)] 1 (1, 1) = Ok a /\
    In ang (Individual.angle_of_direction a) /\
    ~ (0 <= ang < 360).
Proof.
  exists (individual_trace [(1, 1); (2, 1)] 1 (1, 1) 2), 360.
  split; [apply (individual_loop_spec [(1, 1); (2, 1)]); lra|].
  split; [|lra].
  left. cbn [nth Nat.sub]. apply angle_east; simpl; lra.
Qed.

(** C4, amended: for every consecutive frame pair the step direction
    [360 - (degrees mod 360)] lies in the closed interval [0, 360] (it is
    never negative and never more than 360), and it is exactly 360 when the
    step has no vertical part and does not go west. *)
Theorem step_angle_in_closed_range (data : list point) (tbf : R) :
  tbf <> 0 ->
  exists a,
    Individual.loop data tbf (nth 0 data d0) = Ok a /\
    forall i, (1 <= i < length data)%nat ->
      let prev := nth (i - 1) data d0 in
      let cur := nth i data d0 in
      exists ang,
        Individual.angle_of_direction a !! (i - 1)%nat = Some ang /\
        ang = angle prev cur /\
        0 <= ang <= 360 /\
        (snd cur = snd prev -> fst prev <= fst cur -> ang = 360).
Proof.
  intros Ht. eexists. split; [now apply individual_loop_spec|].
  intros i Hi prev cur. exists (angle prev cur).
  split; [|split; [reflexivity|split]].
  - cbn [individual_trace Individual.angle_of_direction].
    now rewrite (lookup_map_range _ (length data) i Hi).
  - pose proof (angle_range prev cur). lra.
  - apply angle_east.
Qed.

Lemma step_angle_in_closed_range_witness :
  exists a,
    Individual.loop [(1, 1); (2, 1)] 1 (nth 0 [(1, 1); (2, 1)] d0) = Ok a /\
    forall i, (1 <= i < length [(1, 1); (2, 1)])%nat ->
      let prev := nth (i - 1) [(1, 1); (2, 1)] d0 in
      let cur := nth i [(1, 1); (2, 1)] d0 in
      exists ang,
        Individual.angle_of_direction a !! (i - 1)%nat = Some ang /\
        ang = angle prev cur /\
        0 <= ang <= 360 /\
        (snd cur = snd prev -> fst prev <= fst cur -> ang = 360).
Proof. apply (step_angle_in_closed_range [(1, 1); (2, 1)] 1). lra. Defined.



(** C7: the final angle the computation produces lies in [0, 360], so
    [round(final_angle / 45)] is one of 0 .. 8 and indexes inside the table of
    nine entries; the table starts and ends with "E"; 360 and 0 give "E" and
    45 gives "NE". *)
Theorem compass_lookup_in_bounds
    (data : list point) (areas : list R) (tbf : R) (units : string) :
  (2 <= length data)%nat -> (1 <= length areas)%nat -> tbf <> 0 ->
  (exists r fa c,
     calc_individual_cell_statistics (Some data) areas tbf units = Ok r /\
     dict_get r "Angle of Direction between Origin and Final Point (degrees)"
       = Some (VNum fa) /\
     0 <= fa <= 360 /\
     (0 <= pyround (fa / 45) < Z.of_nat (length compass_brackets))%Z /\
     getitem compass_brackets (pyround (fa / 45)) = Ok c /\
     dict_get r "Compass Direction Moved" = Some (VStr c)) /\
  length compass_brackets = 9%nat /\
  getitem compass_brackets 0 = Ok "E"%string /\
  getitem compass_brackets 8 = Ok "E"%string /\
  compass 360 = Ok "E"%string /\
  compass 0 = Ok "E"%string /\
  compass 45 = Ok "NE"%string.
Proof.
  intros Hd Ha Ht.
  assert (Hne : areas <> []) by (intros ->; simpl in Ha; lia).
  split.
  - set (a := individual_trace data tbf (nth 0 data d0) (length data)).
    pose proof (individual_final_angle_range data tbf (nth 0 data d0)) as Hfa.
    fold a in Hfa.
    destruct (compass_in_table _ Hfa) as [Hidx [c [Hc _]]].
    exists (individual_report data areas tbf units),
           (Individual.final_angle a), c.
    split; [now apply calc_individual_returns|].
    split; [unfold individual_report; dict_compute; reflexivity|].
    split; [assumption|]. split; [assumption|].
    split.
    + unfold compass in Hc. rewrite pydiv_ok in Hc by lra. exact Hc.
    + unfold individual_report. dict_compute. fold a. now rewrite Hc.
  - split; [reflexivity|]. split; [reflexivity|]. split; [reflexivity|].
    split; [|split].
    + replace 360 with (45 * IZR 8) by lra. now rewrite compass_multiple.
    + replace 0 with (45 * IZR 0) by lra. now rewrite compass_multiple.
    + replace 45 with (45 * IZR 1) at 1 by lra. now rewrite compass_multiple.
Qed.

Lemma compass_lookup_in_bounds_witness :
  (exists r fa c,
     calc_individual_cell_statistics (Some [(1, 1); (2, 1)]) [2; 7] 1 "mm"
       = Ok r /\
     dict_get r "Angle of Direction between Origin and Final Point (degrees)"
       = Some (VNum fa) /\
     0 <= fa <= 360 /\
     (0 <= pyround (fa / 45) < Z.of_nat (length compass_brackets))%Z /\
     getitem compass_brackets (pyround (fa / 45)) = Ok c /\
     dict_get r "Compass Direction Moved" = Some (VStr c)) /\
  length compass_brackets = 9%nat /\
  getitem compass_brackets 0 = Ok "E"%string /\
  getitem compass_brackets 8 = Ok "E"%string /\
  compass 360 = Ok "E"%string /\
  compass 0 = Ok "E"%string /\
  compass 45 = Ok "NE"%string.
Proof.
  apply (compass_lookup_in_bounds [(1, 1); (2, 1)] [2; 7] 1 "mm");
    simpl; [lia|lia|lra].
Defined.

(** C9: the statistic "Final Distance from Origin" is at most the statistic
    "Maximum Distance from Origin": the distance of the final point is the
    last of the distances the maximum is taken over. *)
Theorem final_distance_le_maximum
    (data : list point) (areas : list R) (tbf : R) (units : string) :
  (2 <= length data)%nat -> (1 <= length areas)%nat -> tbf <> 0 ->
  exists r fd md,
    calc_individual_cell_statistics (Some data) areas tbf units = Ok r /\
    dict_get r ("Final Distance from Origin (" ++ units ++ ")")%string
      = Some (VNum fd) /\
    dict_get r ("Maximum Distance from Origin (" ++ units ++ ")")%string
      = Some (VNum md) /\
    fd = dist (nth 0 data d0) (nth (length data - 1) data d0) /\
    fd <= md.
Proof.
  intros Hd Ha Ht.
  assert (Hne : areas <> []) by (intros ->; simpl in Ha; lia).
  set (a := individual_trace data tbf (nth 0 data d0) (length data)).
  exists (individual_report data areas tbf units),
         (dist (nth 0 data d0) (Individual.x a, Individual.y a)),
         (value_of 0 (pymax (Individual.origin_distances a))).
  split; [now apply calc_individual_returns|].
  split; [unfold individual_report; dict_compute; reflexivity|].
  split; [unfold individual_report; dict_compute; reflexivity|].
  assert (Hxy : (Individual.x a, Individual.y a) = nth (length data - 1) data d0).
  { cbn [a individual_trace Individual.x Individual.y].
    replace (2 <=? length data)%nat with true
      by (symmetry; apply Nat.leb_le; lia).
    now destruct (nth (length data - 1) data d0). }
  rewrite Hxy. split; [reflexivity|].
  destruct (pymax_spec (Individual.origin_distances a)) as [m [Hm [_ Hle]]].
  { now apply map_range_nonempty. }
  rewrite Hm. cbn [value_of]. apply Hle.
  cbn [a individual_trace Individual.origin_distances].
  apply (in_map_range (fun i => dist (nth 0 data d0) (nth i data d0))
           (length data) (length data - 1)).
  lia.
Qed.

Lemma final_distance_le_maximum_witness :
  exists r fd md,
    calc_individual_cell_statistics (Some [(1, 1); (4, 5); (2, 1)]) [2; 7] 1 "mm"
      = Ok r /\
    dict_get r "Final Distance from Origin (mm)" = Some (VNum fd) /\
    dict_get r "Maximum Distance from Origin (mm)" = Some (VNum md) /\
    fd = dist (nth 0 [(1, 1); (4, 5); (2, 1)] d0)
              (nth (length [(1, 1); (4, 5); (2, 1)] - 1)
                   [(1, 1); (4, 5); (2, 1)] d0) /\
    fd <= md.
Proof.
  apply (final_distance_le_maximum [(1, 1); (4, 5); (2, 1)] [2; 7] 1 "mm");
    simpl; [lia|lia|lra].
Defined.

Lemma Forall_map_range (P : R -> Prop) (f : nat -> R) (n : nat) :
  (forall i, P (f i)) -> Forall P (map f (range 1 n)).
Proof. intros H. apply Forall_map. apply Forall_forall. intros i _. apply H. Qed.

(** C10: the single-cell computation does not filter placeholders.  A
    trajectory of N >= 2 points gives exactly N-1 step distances, speeds and
    direction angles, the one of round [i] being computed from the points
    [i-1] and [i] whatever they are; a frame [i] holding (0,0) contributes the
    distance from the previous point to (0,0) to the total displacement, to
    the maximum step distance and to the maximum speed. *)
Theorem individual_counts_placeholder_frames
    (data : list point) (areas : list R) (tbf : R) (units : string) :
  (2 <= length data)%nat -> (1 <= length areas)%nat -> tbf <> 0 ->
  let N := length data in
  exists a r total mx ms,
    Individual.loop data tbf (nth 0 data d0) = Ok a /\
    length (Individual.distances a) = (N - 1)%nat /\
    length (Individual.speeds a) = (N - 1)%nat /\
    length (Individual.angle_of_direction a) = (N - 1)%nat /\
    (forall i, (1 <= i < N)%nat ->
       let prev := nth (i - 1) data d0 in
       let cur := nth i data d0 in
       Individual.distances a !! (i - 1)%nat = Some (dist prev cur) /\
       Individual.speeds a !! (i - 1)%nat = Some (dist prev cur / tbf) /\
       Individual.angle_of_direction a !! (i - 1)%nat = Some (angle prev cur)) /\
    calc_individual_cell_statistics (Some data) areas tbf units = Ok r /\
    dict_get r ("Total Displacement (" ++ units ++ ")")%string
      = Some (VNum total) /\
    total = sum (Individual.distances a) /\
    dict_get r ("Maximum Distance Traveled in one Interval (" ++ units ++ ")")%string
      = Some (VNum mx) /\
    dict_get r ("Maximum Speed (" ++ units ++ "/min)")%string
      = Some (VNum ms) /\
    (forall i, (1 <= i < N)%nat -> nth i data d0 = (0, 0) ->
       let step := dist (nth (i - 1) data d0) (0, 0) in
       step <= total /\ step <= mx /\ step / tbf <= ms).
Proof.
  intros Hd Ha Ht0 N.
  assert (Hne : areas <> []) by (intros ->; simpl in Ha; lia).
  set (a := individual_trace data tbf (nth 0 data d0) (length data)).
  exists a, (individual_report data areas tbf units),
    (sum (Individual.distances a)),
    (value_of 0 (pymax (Individual.distances a))),
    (value_of 0 (pymax (Individual.speeds a))).
  split; [now apply individual_loop_spec|].
  split; [cbn [a individual_trace Individual.distances];
          rewrite length_map, range_length; reflexivity|].
  split; [cbn [a individual_trace Individual.speeds];
          rewrite length_map, range_length; reflexivity|].
  split; [cbn [a individual_trace Individual.angle_of_direction];
          rewrite length_map, range_length; reflexivity|].
  split.
  { intros i Hi prev cur.
    cbn [a individual_trace Individual.distances Individual.speeds
         Individual.angle_of_direction].
    rewrite !(lookup_map_range _ (length data) i Hi). auto. }
  split; [now apply calc_individual_returns|].
  split; [unfold individual_report; dict_compute; reflexivity|].
  split; [reflexivity|].
  split; [unfold individual_report; dict_compute; reflexivity|].
  split; [unfold individual_report; dict_compute; reflexivity|].
  intros i Hi Hz step.
  assert (Hin : In step (Individual.distances a)).
  { unfold step. rewrite <- Hz.
    apply (in_map_range
             (fun i => dist (nth (i - 1) data d0) (nth i data d0))
             (length data) i Hi). }
  assert (Hins : In (step / tbf) (Individual.speeds a)).
  { unfold step. rewrite <- Hz.
    apply (in_map_range
             (fun i => dist (nth (i - 1) data d0) (nth i data d0) / tbf)
             (length data) i Hi). }
  split; [|split].
  - apply sum_ge_member; [|assumption].
    apply Forall_map_range. intros j. apply dist_nonneg.
  - destruct (pymax_spec (Individual.distances a)) as [m [Hm [_ Hle]]].
    { now apply map_range_nonempty. }
    rewrite Hm. cbn [value_of]. now apply Hle.
  - destruct (pymax_spec (Individual.speeds a)) as [m [Hm [_ Hle]]].
    { now apply map_range_nonempty. }
    rewrite Hm. cbn [value_of]. now apply Hle.
Qed.

Lemma dist_3_4 : dist (0, 0) (3, 4) = 5 /\ dist (3, 4) (0, 0) = 5.
Proof.
  unfold dist; simpl. split.
  - replace ((0 - 3) * (0 - 3) + (0 - 4) * (0 - 4)) with (5 * 5) by lra.
    apply sqrt_square. lra.
  - replace ((3 - 0) * (3 - 0) + (4 - 0) * (4 - 0)) with (5 * 5) by lra.
    apply sqrt_square. lra.
Qed.

Lemma individual_counts_placeholder_frames_witness :
  exists a r total mx ms,
    Individual.loop [(3, 4); (0, 0); (3, 4)] 1 (nth 0 [(3, 4); (0, 0); (3, 4)] d0) = Ok a /\
    length (Individual.distances a) = 2%nat /\
    length (Individual.speeds a) = 2%nat /\
    length (Individual.angle_of_direction a) = 2%nat /\
    (forall i, (1 <= i < 3)%nat ->
       let prev := nth (i - 1) [(3, 4); (0, 0); (3, 4)] d0 in
       let cur := nth i [(3, 4); (0, 0); (3, 4)] d0 in
       Individual.distances a !! (i - 1)%nat = Some (dist prev cur) /\
       Individual.speeds a !! (i - 1)%nat = Some (dist prev cur / 1) /\
       Individual.angle_of_direction a !! (i - 1)%nat = Some (angle prev cur)) /\
    calc_individual_cell_statistics (Some [(3, 4); (0, 0); (3, 4)]) [2; 7; 9] 1 "mm" = Ok r /\
    dict_get r "Total Displacement (mm)" = Some (VNum total) /\
    total = sum (Individual.distances a) /\
    dict_get r "Maximum Distance Traveled in one Interval (mm)"
      = Some (VNum mx) /\
    dict_get r "Maximum Speed (mm/min)" = Some (VNum ms) /\
    (forall i, (1 <= i < 3)%nat -> nth i [(3, 4); (0, 0); (3, 4)] d0 = (0, 0) ->
       let step := dist (nth (i - 1) [(3, 4); (0, 0); (3, 4)] d0) (0, 0) in
       step <= total /\ step <= mx /\ step / 1 <= ms).
Proof.
  apply (individual_counts_placeholder_frames
           [(3, 4); (0, 0); (3, 4)] [2; 7; 9] 1 "mm"); simpl; [lia|lia|lra].
Defined.

(** The trajectory (3,4), (0,0), (3,4) has total displacement 10: the
    placeholder in the middle is counted as a position. *)
Lemma individual_placeholder_example :
  exists r,
    calc_individual_cell_statistics (Some [(3, 4); (0, 0); (3, 4)]) [2; 7; 9] 1 "mm"
      = Ok r /\
    dict_get r "Total Displacement (mm)" = Some (VNum 10).
Proof.
  eexists. split; [apply calc_individual_returns; simpl; [lia|discriminate|lra]|].
  unfold individual_report. dict_compute.
  cbn [individual_trace Individual.distances range length Nat.sub seq map nth].
  unfold sum. cbn [fold_left].
  destruct dist_3_4 as [H1 H2]. rewrite H1, H2. do 2 f_equal. lra.
Qed.

(** ** The culture CSV export *)

(** C8: for a filename ending in .csv whose file exists, whatever the file
    holds, [culture_to_csv_file] raises "File already exists" and leaves the
    file system as it was: nothing is opened, appended or overwritten. *)
Theorem culture_csv_refuses_existing_file
    (filename : string)
    (positional_data : list (Z * list point)) (area_data : list (Z * list R))
    (positional_headers area_headers : option (list string))
    (fs : Csv.filesystem) (content : list (list Csv.cell)) :
  Csv.endswith filename ".csv" = true ->
  fs !! filename = Some content ->
  culture_to_csv_file filename positional_data area_data
    positional_headers area_headers fs
  = (Raise (Exception "File already exists"), fs).
Proof.
  intros Hext Hfile. unfold culture_to_csv_file, Csv.path_exists.
  rewrite Hext, Hfile. reflexivity.
Qed.

Lemma culture_csv_refuses_existing_file_witness :
  culture_to_csv_file "cells.csv" [(1%Z, [(1, 2)])] [(1%Z, [5])] None None
    {["cells.csv"%string := [[Csv.CStr "kept"]]]}
  = (Raise (Exception "File already exists"),
     {["cells.csv"%string := [[Csv.CStr "kept"]]]}).
Proof.
  apply (culture_csv_refuses_existing_file "cells.csv" _ _ None None _
           [[Csv.CStr "kept"]]).
  - reflexivity.
  - apply lookup_singleton_eq.
Defined.

(** The other two outcomes of the tests at the head of the function. *)
Lemma culture_csv_wrong_extension
    (filename : string)
    (positional_data : list (Z * list point)) (area_data : list (Z * list R))
    (positional_headers area_headers : option (list string))
    (fs : Csv.filesystem) :
  Csv.endswith filename ".csv" = false ->
  culture_to_csv_file filename positional_data area_data
    positional_headers area_headers fs
  = (Raise (Exception "File must be of type .csv"), fs).
Proof.
  intros Hext. unfold culture_to_csv_file. rewrite Hext. reflexivity.
Qed.

Lemma culture_csv_creates_new_file :
  culture_to_csv_file "cells.csv" [(7%Z, [(1, 2); (3, 4)])] [(7%Z, [5; 6])]
    (Some ["id"; "x"; "y"]%string) (Some ["area"]%string) ∅
  = (Ok tt,
     {["cells.csv"%string :=
         [ [Csv.CStr "id"; Csv.CStr "x"; Csv.CStr "y"; Csv.CStr "area"];
           [Csv.CId 7; Csv.CNum 1; Csv.CNum 2; Csv.CNum 3; Csv.CNum 4;
            Csv.CNum 5; Csv.CNum 6] ]]}).
Proof.
  unfold culture_to_csv_file.
  replace (Csv.endswith "cells.csv" ".csv") with true by reflexivity.
  unfold Csv.path_exists. rewrite lookup_empty.
  cbn [negb map fst index bind Csv.lookup_key Z.eqb Pos.eqb default app].
  change ([7%Z] !! 0%nat) with (Some 7%Z).
  cbn [Csv.lookup_key Z.eqb Pos.eqb Csv.write_rows Csv.build_row flat_map map
       app fst snd].
  unfold Csv.writerow, Csv.open_w.
  reflexivity.
Qed.

(** ** The loop over [positional_data] *)

Lemma nonzero_0 : nonzero 0 = false.
Proof. unfold nonzero. destruct (Req_dec_T 0 0); [reflexivity|contradiction]. Qed.

Lemma nonzero_true (r : R) : r <> 0 -> nonzero r = true.
Proof. intros H. unfold nonzero. destruct (Req_dec_T r 0); [contradiction|reflexivity]. Qed.

Lemma nonzero_spec (r : R) : nonzero r = true <-> r <> 0.
Proof.
  unfold nonzero. destruct (Req_dec_T r 0); split; intros; congruence.
Qed.

Lemma tracked_placeholder : tracked (0, 0) = false.
Proof. unfold tracked. simpl. now rewrite nonzero_0. Qed.

Lemma tracked_false (p : point) : tracked p = false <-> p = (0, 0).
Proof.
  destruct p as [px py]. unfold tracked. simpl. split.
  - intros H. apply orb_false_iff in H. destruct H as [H1 H2].
    unfold nonzero in *.
    destruct (Req_dec_T px 0); [|discriminate].
    destruct (Req_dec_T py 0); [|discriminate]. congruence.
  - intros H. injection H as -> ->. now rewrite nonzero_0.
Qed.

Lemma acc_eta (a : Culture.acc) :
  a = {| Culture.displacements := Culture.displacements a;
         Culture.final_distances := Culture.final_distances a;
         Culture.speeds := Culture.speeds a;
         Culture.angle_of_direction := Culture.angle_of_direction a |}.
Proof. now destruct a. Qed.

Lemma cell_loop_upto (data : list point) (tbf : R) (origin : point)
    (a : Culture.acc) (n : nat) :
  tbf <> 0 -> (n <= length data)%nat ->
  for_each (range 1 n) (Culture.step data tbf origin) (a, [])
  = Ok (cell_trace data tbf origin a n).
Proof.
  intros Ht. induction n as [|n IH]; intros Hn.
  - cbn. unfold cell_trace. cbn [range Nat.sub seq List.filter map].
    destruct ((0 =? length data)%nat && produces_displacement data) eqn:E.
    + apply andb_true_iff in E. destruct E as [E1 E2].
      apply Nat.eqb_eq in E1. unfold produces_displacement in E2.
      rewrite <- E1 in E2. discriminate.
    + rewrite !app_nil_r. do 2 f_equal. apply acc_eta.
  - destruct n as [|n].
    + cbn. unfold cell_trace. cbn [range Nat.sub seq List.filter map].
      destruct ((1 =? length data)%nat && produces_displacement data) eqn:E.
      * apply andb_true_iff in E. destruct E as [E1 E2].
        apply Nat.eqb_eq in E1. unfold produces_displacement in E2.
        rewrite <- E1 in E2. discriminate.
      * rewrite !app_nil_r. do 2 f_equal. apply acc_eta.
    + rewrite range_snoc by lia. rewrite for_each_app, IH by lia.
      cbn [bind for_each]. unfold cell_trace.
      replace ((S n =? length data)%nat) with false
        by (symmetry; apply Nat.eqb_neq; lia).
      cbn [andb]. rewrite !app_nil_r.
      rewrite (range_snoc 1 (S n)) by lia.
      rewrite List.filter_app. cbn [List.filter].
      unfold Culture.step.
      rewrite (index_lt data (S n) d0) by lia. cbn [bind].
      fold (tracked (nth (S n) data d0)).
      replace (S (S n) - 1)%nat with (S n) by lia.
      destruct (tracked (nth (S n) data d0)) eqn:Etr.
      * rewrite (index_lt data (S n - 1) d0) by lia. cbn [bind].
        rewrite pydiv_ok by assumption. cbn [bind].
        rewrite !map_app. cbn [map].
        cbn [Culture.displacements Culture.final_distances Culture.speeds
             Culture.angle_of_direction].
        unfold produces_displacement.
        destruct (Nat.eqb_spec (S n) (length data - 1)) as [e|ne].
        -- replace ((S (S n) =? length data)%nat) with true
             by (symmetry; apply Nat.eqb_eq; lia).
           replace ((2 <=? length data)%nat) with true
             by (symmetry; apply Nat.leb_le; lia).
           rewrite <- e, Etr. cbn [andb].
           rewrite <- !app_assoc. reflexivity.
        -- replace ((S (S n) =? length data)%nat) with false
             by (symmetry; apply Nat.eqb_neq; lia).
           cbn [andb]. rewrite !app_nil_r, <- !app_assoc. reflexivity.
      * rewrite !app_nil_r.
        destruct (Nat.eqb_spec (S (S n)) (length data)) as [e|ne].
        -- unfold produces_displacement.
           replace (length data - 1)%nat with (S n) by lia.
           rewrite Etr, andb_false_r. cbn [andb]. rewrite !app_nil_r.
           reflexivity.
        -- cbn [andb]. rewrite !app_nil_r. reflexivity.
Qed.

Lemma cell_spec (tbf : R) (key : Z) (data : list point) (a : Culture.acc) :
  tbf <> 0 -> data <> [] ->
  Culture.cell tbf (key, Some data) a
  = Ok (fst (cell_trace data tbf (nth 0 data d0) a (length data))).
Proof.
  intros Ht Hd. unfold Culture.cell. cbn [snd].
  rewrite (index_lt data 0 d0)
    by (destruct data; [contradiction|simpl; lia]).
  cbn [bind]. rewrite cell_loop_upto by (assumption || lia). reflexivity.
Qed.

Lemma produces_displacement_round (data : list point) :
  produces_displacement data = true ->
  List.filter (fun i => tracked (nth i data d0)) (range 1 (length data)) <> [].
Proof.
  unfold produces_displacement. intros H.
  apply andb_true_iff in H. destruct H as [H1 H2]. apply Nat.leb_le in H1.
  intros E.
  assert (Hin : In (length data - 1)%nat
                  (List.filter (fun i => tracked (nth i data d0))
                     (range 1 (length data)))).
  { apply List.filter_In. split; [|assumption].
    unfold range. apply in_seq. lia. }
  rewrite E in Hin. destruct Hin.
Qed.

Lemma cell_trace_ok (data : list point) (tbf : R) (origin : point)
    (a : Culture.acc) :
  acc_ok a ->
  let a' := fst (cell_trace data tbf origin a (length data)) in
  acc_ok a' /\
  length (Culture.displacements a')
  = (length (Culture.displacements a)
     + (if produces_displacement data then 1 else 0))%nat.
Proof.
  intros (H1 & H2 & H3 & H4). unfold cell_trace.
  cbn [fst Culture.displacements Culture.final_distances Culture.speeds
       Culture.angle_of_direction acc_ok].
  rewrite Nat.eqb_refl. cbn [andb].
  destruct (produces_displacement data) eqn:E.
  - unfold acc_ok.
    cbn [Culture.displacements Culture.final_distances Culture.speeds
         Culture.angle_of_direction].
    rewrite !length_app. cbn [length].
    repeat split; try lia.
    + intros _ Hs. apply app_eq_nil in Hs. destruct Hs as [_ Hs].
      apply map_eq_nil in Hs. apply map_eq_nil in Hs.
      now apply (produces_displacement_round data E).
    + apply Forall_app. split; [assumption|].
      constructor; [|constructor].
      pose proof (angle_range origin (nth (length data - 1) data d0)). lra.
  - unfold acc_ok.
    cbn [Culture.displacements Culture.final_distances Culture.speeds
         Culture.angle_of_direction].
    rewrite !app_nil_r.
    repeat split; try lia; try assumption.
    intros Hd Hs. apply app_eq_nil in Hs. destruct Hs as [Hs _]. now apply H3.
Qed.

Lemma positions_from (tbf : R) (positional_data : list (Z * option (list point)))
    (a : Culture.acc) :
  tbf <> 0 ->
  Forall (fun entry => snd entry <> Some []) positional_data ->
  acc_ok a ->
  exists a',
    for_each positional_data (Culture.cell tbf) a = Ok a' /\
    acc_ok a' /\
    length (Culture.displacements a')
    = (length (Culture.displacements a)
       + length (List.filter moves positional_data))%nat.
Proof.
  intros Ht Hpd. revert a.
  induction Hpd as [|[key data] rest Hd Hrest IH]; intros a Ha.
  - exists a. cbn. repeat split; try apply Ha. lia.
  - cbn [for_each]. destruct data as [data|].
    + rewrite cell_spec by (assumption || (cbn in Hd; congruence)).
      cbn [bind].
      destruct (cell_trace_ok data tbf (nth 0 data d0) a Ha) as [Hok Hlen].
      destruct (IH _ Hok) as (a' & Hrun & Hok' & Hlen').
      exists a'. split; [assumption|]. split; [assumption|].
      rewrite Hlen', Hlen. cbn [List.filter]. unfold moves at 2. cbn [snd].
      destruct (produces_displacement data); cbn [length]; lia.
    + cbn [Culture.cell snd bind].
      destruct (IH _ Ha) as (a' & Hrun & Hok' & Hlen').
      exists a'. split; [assumption|]. split; [assumption|].
      rewrite Hlen'. cbn [List.filter]. unfold moves at 2. cbn [snd]. lia.
Qed.

Lemma positions_spec (tbf : R)
    (positional_data : list (Z * option (list point))) :
  tbf <> 0 ->
  Forall (fun entry => snd entry <> Some []) positional_data ->
  exists a,
    Culture.positions positional_data tbf = Ok a /\
    acc_ok a /\
    length (Culture.displacements a)
    = length (List.filter moves positional_data).
Proof.
  intros Ht Hpd.
  destruct (positions_from tbf positional_data Culture.init Ht Hpd)
    as (a & Hrun & Hok & Hlen).
  - unfold acc_ok. cbn. repeat split; auto.
  - exists a. auto.
Qed.

(** ** The loop over [area_data] *)

Lemma next_nonzero_spec (value : list R) :
  measured value ->
  exists v zeros rest,
    Culture.next_nonzero value = Ok v /\ v <> 0 /\
    value = zeros ++ v :: rest /\ Forall (fun z => z = 0) zeros.
Proof.
  unfold Culture.next_nonzero. induction value as [|a value IH]; intros [v [Hin Hv]].
  - destruct Hin.
  - cbn [List.filter]. destruct (nonzero a) eqn:E.
    + exists a, [], value. apply nonzero_spec in E. repeat split; auto.
    + assert (Ha : a = 0).
      { unfold nonzero in E. destruct (Req_dec_T a 0); [assumption|discriminate]. }
      destruct Hin as [Hin|Hin]; [congruence|].
      destruct IH as (w & zeros & rest & Hrun & Hw & Hsplit & Hz).
      { now exists v. }
      exists w, (a :: zeros), rest. rewrite Hrun. repeat split; auto.
      now rewrite Hsplit.
Qed.

Lemma list_index_spec (value : list R) (v : R) :
  In v value ->
  exists n, Culture.list_index value v = Ok n /\
            (n < length value)%nat /\ nth n value 0 = v.
Proof.
  induction value as [|a value IH]; intros Hin; [destruct Hin|].
  cbn [Culture.list_index]. destruct (Req_dec_T a v) as [e|ne].
  - exists 0%nat. simpl. repeat split; auto. lia.
  - destruct Hin as [Hin|Hin]; [contradiction|].
    destruct (IH Hin) as (n & Hrun & Hlt & Hnth).
    exists (S n). rewrite Hrun. simpl. repeat split; auto. lia.
Qed.

Lemma measured_nonempty (value : list R) : measured value -> value <> [].
Proof. intros [v [Hin _]] ->. destruct Hin. Qed.

Lemma area_spec (entry : Z * list R) (s : Culture.sizes) :
  measured (snd entry) ->
  exists first zeros rest,
    Culture.area entry s = Ok (area_next entry s first) /\
    first <> 0 /\ snd entry = zeros ++ first :: rest /\
    Forall (fun z => z = 0) zeros.
Proof.
  destruct entry as [key value]. cbn [snd]. intros Hm.
  pose proof (measured_nonempty value Hm) as Hne.
  destruct (next_nonzero_spec value Hm) as (v & zeros & rest & Hv & Hv0 & Hsplit & Hz).
  assert (Hin : In v value) by (rewrite Hsplit; apply in_elt).
  destruct (list_index_spec value v Hin) as (n & Hn & Hlt & Hnth).
  exists v, zeros, rest. split; [|auto].
  unfold Culture.area.
  rewrite (pymin_value value), (pymax_value value) by assumption.
  cbn [bind].
  rewrite (index_lt value (length value - 1) 0)
    by (destruct value; [contradiction|simpl; lia]).
  cbn [bind]. rewrite Hv. cbn [bind]. rewrite Hn. cbn [bind].
  rewrite (index_lt value n 0) by assumption. cbn [bind].
  rewrite Hnth. reflexivity.
Qed.

(** An area series without a measured value stops the loop: [next] finds
    nothing. *)
Lemma area_unmeasured (key : Z) (value : list R) (s : Culture.sizes) :
  value <> [] -> Forall (fun z => z = 0) value ->
  Culture.area (key, value) s = Raise StopIteration.
Proof.
  intros Hne Hz. unfold Culture.area.
  rewrite (pymin_value value), (pymax_value value) by assumption.
  cbn [bind].
  rewrite (index_lt value (length value - 1) 0)
    by (destruct value; [contradiction|simpl; lia]).
  cbn [bind].
  assert (E : Culture.next_nonzero value = Raise StopIteration).
  { unfold Culture.next_nonzero. clear Hne.
    induction Hz as [|a value Ha Hz IH]; [reflexivity|].
    cbn [List.filter]. subst a. now rewrite nonzero_0. }
  now rewrite E.
Qed.

Lemma largest_step (seen : list (Z * list R)) (e : Z * list R)
    (s : Culture.sizes) (first : R) :
  largest_of seen (Culture.max_cell_size s) (Culture.max_cell_id s) ->
  largest_of (seen ++ [e])
    (Culture.max_cell_size (area_next e s first))
    (Culture.max_cell_id (area_next e s first)).
Proof.
  intros H. cbn [area_next Culture.max_cell_size Culture.max_cell_id].
  unfold Rltb.
  destruct (Rlt_dec (Culture.max_cell_size s) (cell_max e)) as [Hlt|Hge].
  - right. exists seen, e, []. repeat split; auto.
    + destruct H as [(H0 & _ & _)|(b & c & a & _ & Hs & _ & Hpos & _)]; lra.
    + destruct H as [(H0 & _ & Hall)|(b & c & a & Hsplit & Hs & _ & _ & Hb & Ha)].
      * eapply List.Forall_impl; [|exact Hall]. cbn. intros x Hx. lra.
      * rewrite Hsplit. apply Forall_app. split.
        -- eapply List.Forall_impl; [|exact Hb]. cbn. intros x Hx. lra.
        -- constructor; [lra|].
           eapply List.Forall_impl; [|exact Ha]. cbn. intros x Hx. lra.
  - destruct H as [(H0 & Hid & Hall)|(b & c & a & Hsplit & Hs & Hid & Hpos & Hb & Ha)].
    + left. repeat split; auto. apply Forall_app. split; [assumption|].
      constructor; [lra|constructor].
    + right. exists b, c, (a ++ [e]). repeat split; auto.
      * rewrite Hsplit, <- app_assoc. reflexivity.
      * apply Forall_app. split; [assumption|]. constructor; [lra|constructor].
Qed.

Lemma smallest_step (seen : list (Z * list R)) (e : Z * list R)
    (s : Culture.sizes) (first : R) :
  smallest_of seen (Culture.min_cell_size s) (Culture.min_cell_id s) ->
  smallest_of (seen ++ [e])
    (Culture.min_cell_size (area_next e s first))
    (Culture.min_cell_id (area_next e s first)).
Proof.
  intros H. cbn [area_next Culture.min_cell_size Culture.min_cell_id].
  unfold nonzero, Rltb.
  destruct (Req_dec_T (cell_min e) 0) as [Hz|Hnz]; cbn [andb].
  - destruct H as [(H0 & Hid & Hall)|(b & c & a & Hsplit & Hs & Hid & Hne & Hb & Ha)].
    + left. repeat split; auto. apply Forall_app. split; [assumption|].
      constructor; [assumption|constructor].
    + right. exists b, c, (a ++ [e]). repeat split; auto.
      * rewrite Hsplit, <- app_assoc. reflexivity.
      * apply Forall_app. split; [assumption|].
        constructor; [now left|constructor].
  - destruct H as [(H0 & Hid & Hall)|(b & c & a & Hsplit & Hs & Hid & Hne & Hb & Ha)].
    + rewrite H0. right. exists seen, e, []. repeat split; auto.
      eapply List.Forall_impl; [|exact Hall]. cbn. intros x Hx. now left.
    + rewrite Hs.
      destruct (Rlt_dec (cell_min e) (cell_min c)) as [Hlt|Hge].
      * right. exists seen, e, []. repeat split; auto.
        rewrite Hsplit. apply Forall_app. split.
        -- eapply List.Forall_impl; [|exact Hb]. cbn. intros x [Hx|Hx]; [now left|right; lra].
        -- constructor; [right; lra|].
           eapply List.Forall_impl; [|exact Ha]. cbn. intros x [Hx|Hx]; [now left|right; lra].
      * right. exists b, c, (a ++ [e]). repeat split; auto.
        -- rewrite Hsplit, <- app_assoc. reflexivity.
        -- apply Forall_app. split; [assumption|].
           constructor; [right; lra|constructor].
Qed.

Lemma areas_from (seen rest : list (Z * list R)) (s : Culture.sizes) :
  Forall (fun entry => measured (snd entry)) rest ->
  sizes_ok seen s ->
  exists s', for_each rest Culture.area s = Ok s' /\ sizes_ok (seen ++ rest) s'.
Proof.
  intros Hrest. revert seen s.
  induction Hrest as [|e rest He Hrest IH]; intros seen s Hok.
  - exists s. rewrite app_nil_r. split; [reflexivity|assumption].
  - cbn [for_each].
    destruct (area_spec e s He) as (first & zeros & tail & Hrun & _).
    rewrite Hrun. cbn [bind].
    destruct Hok as (Hl & Hs & Hf & Hg).
    destruct (IH (seen ++ [e]) (area_next e s first)) as (s' & Hrun' & Hok').
    { repeat split.
      - now apply largest_step.
      - now apply smallest_step.
      - cbn [area_next Culture.final_sizes]. rewrite !length_app. simpl. lia.
      - cbn [area_next Culture.growth]. rewrite !length_app. simpl. lia. }
    exists s'. split; [assumption|]. now rewrite <- app_assoc in Hok'.
Qed.

Lemma areas_spec (area_data : list (Z * list R)) :
  Forall (fun entry => measured (snd entry)) area_data ->
  exists s, Culture.areas area_data = Ok s /\ sizes_ok area_data s.
Proof.
  intros H. apply (areas_from [] area_data Culture.init_sizes H).
  repeat split; cbn; auto; left; repeat split; auto.
Qed.

(** ** The report of [calc_culture_cell_statistics] *)

Lemma sum_bounds (l : list R) (lo hi : R) :
  Forall (fun x => lo <= x <= hi) l ->
  len l * lo <= sum l <= len l * hi.
Proof.
  unfold len. induction 1 as [|a l Ha Hl IH].
  - rewrite sum_nil. simpl. lra.
  - rewrite sum_cons. change (length (a :: l)) with (S (length l)).
    rewrite S_INR. lra.
Qed.

Lemma mean_bounds (l : list R) (lo hi : R) :
  l <> [] -> Forall (fun x => lo <= x <= hi) l ->
  lo <= sum l / len l <= hi.
Proof.
  intros Hne Hall. destruct (sum_bounds l lo hi Hall) as [H1 H2].
  assert (Hpos : 0 < len l).
  { unfold len. destruct l; [contradiction|]. apply lt_0_INR. simpl. lia. }
  split.
  - apply Rmult_le_reg_r with (len l); [assumption|].
    unfold Rdiv. rewrite Rmult_assoc, Rinv_l by lra. lra.
  - apply Rmult_le_reg_r with (len l); [assumption|].
    unfold Rdiv. rewrite Rmult_assoc, Rinv_l by lra. lra.
Qed.

Lemma length_nonempty {A : Type} (l : list A) : (0 < length l)%nat -> l <> [].
Proof. intros H ->. simpl in H. lia. Qed.

Lemma movement_returns (a : Culture.acc) (s : Culture.sizes) (units : string) :
  acc_ok a -> Culture.displacements a <> [] -> Culture.growth s <> [] ->
  Culture.movement a s units [] = Ok (culture_movement_report a s units).
Proof.
  intros (H1 & H2 & H3 & H4) Hd Hg.
  assert (Hlen : (0 < length (Culture.displacements a))%nat)
    by (destruct (Culture.displacements a); [contradiction|simpl; lia]).
  assert (Hf : Culture.final_distances a <> [])
    by (apply length_nonempty; lia).
  assert (Ha : Culture.angle_of_direction a <> [])
    by (apply length_nonempty; lia).
  specialize (H3 Hd).
  unfold Culture.movement.
  rewrite (pydiv_ok _ (len (Culture.displacements a))) by (now apply len_nonzero).
  cbn [bind].
  rewrite (pymax_value (Culture.displacements a)),
          (pymin_value (Culture.displacements a)) by assumption.
  cbn [bind].
  rewrite (pydiv_ok _ (len (Culture.final_distances a))) by (now apply len_nonzero).
  cbn [bind].
  rewrite (pydiv_ok _ (len (Culture.speeds a))) by (now apply len_nonzero).
  cbn [bind].
  rewrite (pymax_value (Culture.speeds a)),
          (pymin_value (Culture.speeds a)) by assumption.
  cbn [bind].
  rewrite (pydiv_ok _ (len (Culture.angle_of_direction a)))
    by (now apply len_nonzero).
  cbn [bind].
  rewrite compass_value by (now apply mean_bounds).
  cbn [bind].
  rewrite (pydiv_ok _ (len (Culture.growth s))) by (now apply len_nonzero).
  cbn [bind].
  reflexivity.
Qed.

Lemma calc_culture_report
    (positional_data : list (Z * option (list point)))
    (area_data : list (Z * list R)) (tbf area_of_frame : R) (units : string)
    (a : Culture.acc) (s : Culture.sizes) :
  Culture.positions positional_data tbf = Ok a -> acc_ok a ->
  Culture.areas area_data = Ok s -> sizes_ok area_data s ->
  area_data <> [] -> area_of_frame <> 0 ->
  calc_culture_cell_statistics positional_data area_data tbf area_of_frame units
  = Ok (culture_report a s area_of_frame units).
Proof.
  intros Hp Ha Hs (_ & _ & Hfs & Hgr) Hne Haof.
  assert (Hlen : (0 < length area_data)%nat)
    by (destruct area_data; [contradiction|simpl; lia]).
  unfold calc_culture_cell_statistics, culture_report.
  rewrite Hp, Hs. cbn [bind].
  destruct (Nat.eqb_spec (length (Culture.displacements a)) 0) as [e|ne];
    cbn [negb].
  - cbn [bind app]. rewrite (pydiv_ok _ area_of_frame) by assumption.
    cbn [bind].
    rewrite (pydiv_ok _ (len (Culture.final_sizes s)))
      by (apply len_nonzero, length_nonempty; lia).
    cbn [bind]. reflexivity.
  - rewrite movement_returns;
      [|assumption|apply length_nonempty; lia|apply length_nonempty; lia].
    cbn [bind]. rewrite (pydiv_ok _ area_of_frame) by assumption.
    cbn [bind].
    rewrite (pydiv_ok _ (len (Culture.final_sizes s)))
      by (apply len_nonzero, length_nonempty; lia).
    cbn [bind]. reflexivity.
Qed.

(** With a non-zero time step and frame area, non-empty trajectories, at
    least one cell and a measured area for every cell, the computation
    returns its report. *)
Lemma calc_culture_returns
    (positional_data : list (Z * option (list point)))
    (area_data : list (Z * list R)) (tbf area_of_frame : R) (units : string) :
  tbf <> 0 -> area_of_frame <> 0 ->
  Forall (fun entry => snd entry <> Some []) positional_data ->
  area_data <> [] ->
  Forall (fun entry => measured (snd entry)) area_data ->
  exists a s,
    Culture.positions positional_data tbf = Ok a /\ acc_ok a /\
    length (Culture.displacements a)
      = length (List.filter moves positional_data) /\
    Culture.areas area_data = Ok s /\ sizes_ok area_data s /\
    calc_culture_cell_statistics positional_data area_data tbf area_of_frame
      units
    = Ok (culture_report a s area_of_frame units).
Proof.
  intros Ht Haof Hpd Hne Had.
  destruct (positions_spec tbf positional_data Ht Hpd) as (a & Hp & Hok & Hlen).
  destruct (areas_spec area_data Had) as (s & Hs & Hsok).
  exists a, s. repeat split; try assumption; try apply Hok; try apply Hsok.
  now apply calc_culture_report.
Qed.








(** The culture of two single-frame cells returns the report of the six
    labels. *)
Lemma culture_single_frame_example :
  exists r,
    calc_culture_cell_statistics
      [(1%Z, Some [(5, 5)]); (2%Z, Some [(7, 8)])] [(1%Z, [4]); (2%Z, [6])]
      1 100 "mm" = Ok r /\
    keys r = fixed_keys "mm".
Proof.
  destruct (calc_culture_returns
              [(1%Z, Some [(5, 5)]); (2%Z, Some [(7, 8)])]
              [(1%Z, [4]); (2%Z, [6])] 1 100 "mm")
    as (a & s & _ & _ & Hlen & _ & _ & Hrun).
  - lra.
  - lra.
  - repeat constructor; discriminate.
  - discriminate.
  - constructor; [|constructor; [|constructor]].
    + exists 4. split; [now left|lra].
    + exists 6. split; [now left|lra].
  - eexists. split; [exact Hrun|].
    unfold culture_report. rewrite Hlen. reflexivity.
Qed.

(** ** Largest and smallest cell *)

(** Evaluation of the comparisons of concrete numbers. *)
Ltac decide_R :=
  repeat match goal with
    | |- context [Rlt_dec ?a ?b] => destruct (Rlt_dec a b); try lra
    | |- context [Rle_dec ?a ?b] => destruct (Rle_dec a b); try lra
    | |- context [Req_dec_T ?a ?b] => destruct (Req_dec_T a b); try lra
    end.

Ltac py_eval :=
  repeat (progress
    (unfold Culture.positions, Culture.cell, Culture.step, Culture.areas,
       Culture.area, Culture.next_nonzero, Culture.init, Culture.init_sizes,
       index, pymin, pymax, nonzero, Rltb, pydiv, range, tracked;
     cbn [for_each bind seq Nat.sub length fst snd app
          Culture.list_index
          Culture.displacements Culture.final_distances Culture.speeds
          Culture.angle_of_direction Culture.final_sizes Culture.growth
          Culture.max_cell_size Culture.max_cell_id Culture.min_cell_size
          Culture.min_cell_id
          lookup list_lookup fold_left List.filter
          andb orb negb Nat.eqb];
     decide_R)).





(** A cell whose areas are all zero stops the computation: no report is
    returned, and no minimum is reported as None. *)
Lemma culture_unmeasured_cell_raises (tbf area_of_frame : R) (units : string) :
  calc_culture_cell_statistics [(1%Z, Some [(1, 1)])] [(1%Z, [0; 0])]
    tbf area_of_frame units = Raise StopIteration.
Proof.
  unfold calc_culture_cell_statistics.
  replace (Culture.positions [(1%Z, Some [(1, 1)])] tbf) with (Ok Culture.init)
    by reflexivity.
  cbn [bind]. unfold Culture.areas. cbn [for_each].
  rewrite area_unmeasured; [reflexivity|discriminate|].
  repeat constructor.
Qed.

(** ** Placeholders in the culture-wide computation *)

(** The steps a cell adds are those of the rounds whose current point is not
    the placeholder: a placeholder is never the end of a recorded step. *)
Lemma culture_cell_steps (tbf : R) (key : Z) (data : list point)
    (a : Culture.acc) :
  tbf <> 0 -> data <> [] ->
  exists a',
    Culture.cell tbf (key, Some data) a = Ok a' /\
    Culture.speeds a'
    = Culture.speeds a
      ++ map (fun i => dist (nth (i - 1) data d0) (nth i data d0) / tbf)
           (List.filter (fun i => tracked (nth i data d0))
              (range 1 (length data))).
Proof.
  intros Ht Hd. eexists. split; [now apply cell_spec|].
  cbn [cell_trace fst Culture.speeds]. now rewrite map_map.
Qed.

(** C1, the failing input: the trajectory (1,1), (0,0), (3,4) has no pair of
    consecutive points free of the placeholder, yet the round of the last
    frame takes the placeholder (0,0) as the previous position and records
    the step of length 5 from (0,0) to (3,4) as a speed and as the cell's
    displacement. *)
Theorem placeholder_used_as_previous_position :
  tracked (0, 0) = false /\
  exists a,
    Culture.positions [(1%Z, Some [(1, 1); (0, 0); (3, 4)])] 1 = Ok a /\
    Culture.speeds a = [dist (0, 0) (3, 4) / 1] /\
    Culture.speeds a = [5] /\
    Culture.displacements a = [5].
Proof.
  split; [apply tracked_placeholder|].
  eexists. split.
  - py_eval; reflexivity.
  - cbn [Culture.speeds Culture.displacements app].
    unfold sum. cbn [fold_left]. destruct dist_3_4 as [H _]. rewrite H.
    repeat split; f_equal; lra.
Qed.

(** * Further properties *)

(** ** [merge] *)

Lemma combine_snoc {A B : Type} (l1 : list A) (l2 : list B) (a : A) (b : B) :
  length l1 = length l2 ->
  combine (l1 ++ [a]) (l2 ++ [b]) = combine l1 l2 ++ [(a, b)].
Proof.
  revert l2. induction l1 as [|x l1 IH]; intros [|y l2] H; simpl in *;
    try discriminate; [reflexivity|].
  f_equal. apply IH. lia.
Qed.

Lemma combine_take_second {A B : Type} (l1 : list A) (l2 : list B) :
  combine l1 (firstn (length l1) l2) = combine l1 l2.
Proof.
  revert l2. induction l1 as [|x l1 IH]; intros [|y l2]; simpl;
    try reflexivity.
  f_equal. apply IH.
Qed.

Lemma combine_fst {A B : Type} (l1 : list A) (l2 : list B) :
  (length l1 <= length l2)%nat -> map fst (combine l1 l2) = l1.
Proof.
  revert l2. induction l1 as [|x l1 IH]; intros [|y l2] H; simpl in *;
    try reflexivity; [lia|].
  f_equal. apply IH. lia.
Qed.

Lemma combine_snd {A B : Type} (l1 : list A) (l2 : list B) :
  map snd (combine l1 l2) = firstn (length l1) l2.
Proof.
  revert l2. induction l1 as [|x l1 IH]; intros [|y l2]; simpl;
    try reflexivity.
  f_equal. apply IH.
Qed.

Lemma merge_upto {A B : Type} (list1 : list A) (list2 : list B) (n : nat) :
  (n <= length list1)%nat -> (n <= length list2)%nat ->
  for_each (range 0 n)
    (fun i merged_list =>
       let! a := index list1 i in
       let! b := index list2 i in
       Ok (merged_list ++ [(a, b)])) []
  = Ok (combine (firstn n list1) (firstn n list2)).
Proof.
  induction n as [|n IH]; intros H1 H2; [reflexivity|].
  rewrite range_snoc by lia. rewrite for_each_app, IH by lia.
  cbn [bind for_each].
  destruct (lookup_lt_is_Some_2 list1 n ltac:(lia)) as [a Ha].
  destruct (lookup_lt_is_Some_2 list2 n ltac:(lia)) as [b Hb].
  unfold index. rewrite Ha, Hb. cbn [bind]. f_equal.
  rewrite (take_S_r list1 n a Ha), (take_S_r list2 n b Hb).
  symmetry. apply combine_snoc. rewrite !length_firstn. lia.
Qed.

(** X1: when the second list is at least as long as the first, [merge] pairs
    the items position by position; the items of the second list beyond the
    length of the first are dropped, and the two lists are recovered from the
    result. *)
Theorem merge_pairs_positions {A B : Type} (list1 : list A) (list2 : list B) :
  (length list1 <= length list2)%nat ->
  exists merged,
    merge list1 list2 = Ok merged /\
    merged = combine list1 list2 /\
    length merged = length list1 /\
    map fst merged = list1 /\
    map snd merged = firstn (length list1) list2.
Proof.
  intros H. exists (combine list1 (firstn (length list1) list2)).
  split.
  - unfold merge. rewrite merge_upto by lia. now rewrite firstn_all.
  - rewrite combine_take_second. repeat split.
    + rewrite length_combine. lia.
    + now apply combine_fst.
    + apply combine_snd.
Qed.

Lemma merge_pairs_positions_witness :
  exists merged,
    merge [1; 2] [7; 8; 9] = Ok merged /\
    merged = combine [1; 2] [7; 8; 9] /\
    length merged = length [1; 2] /\
    map fst merged = [1; 2] /\
    map snd merged = firstn (length [1; 2]) [7; 8; 9].
Proof. apply (merge_pairs_positions [1; 2] [7; 8; 9]). simpl. lia. Defined.

(** X2: when the second list is shorter than the first, [merge] raises
    [IndexError]. *)
Theorem merge_short_second_list {A B : Type} (list1 : list A) (list2 : list B) :
  (length list2 < length list1)%nat ->
  merge list1 list2 = Raise IndexError.
Proof.
  intros H. unfold merge.
  replace (length list1) with (S (length list2) + (length list1 - S (length list2)))%nat
    by lia.
  unfold range. rewrite Nat.sub_0_r, seq_app, for_each_app.
  replace (seq 0 (S (length list2))) with (range 0 (S (length list2)))
    by (unfold range; now rewrite Nat.sub_0_r).
  rewrite range_snoc by lia. rewrite for_each_app.
  rewrite merge_upto by lia. cbn [bind for_each].
  destruct (lookup_lt_is_Some_2 list1 (length list2) H) as [a Ha].
  unfold index at 1. rewrite Ha. cbn [bind].
  rewrite index_ge by lia. reflexivity.
Qed.

Lemma merge_short_second_list_witness :
  merge [1; 2; 3] [7] = Raise IndexError.
Proof. apply (merge_short_second_list [1; 2; 3] [7]). simpl. lia. Defined.

(** ** Single-cell statistics: errors and the shape of the report *)

(** X3: a trajectory of a single frame passes the test [data is not None],
    runs no round of the loop, and raises [ValueError] at
    [max(origin_distances)], whatever the point, the areas and the time
    step. *)
Theorem individual_single_frame_raises
    (p : point) (areas : list R) (tbf : R) (units : string) :
  calc_individual_cell_statistics (Some [p]) areas tbf units = Raise ValueError.
Proof. reflexivity. Qed.

Lemma range_cons (lo hi : nat) :
  (lo < hi)%nat -> range lo hi = lo :: range (S lo) hi.
Proof.
  intros H. unfold range.
  replace (hi - lo)%nat with (S (hi - S lo)) by lia. reflexivity.
Qed.

(** X4: with a time step of zero, a trajectory of two frames or more raises
    [ZeroDivisionError] at the first speed. *)
Theorem individual_zero_time_step
    (data : list point) (areas : list R) (units : string) :
  (2 <= length data)%nat ->
  calc_individual_cell_statistics (Some data) areas 0 units
  = Raise ZeroDivisionError.
Proof.
  intros H. unfold calc_individual_cell_statistics.
  rewrite (index_lt data 0 d0) by lia. cbn [bind].
  unfold Individual.loop. rewrite range_cons by lia. cbn [for_each].
  unfold Individual.step at 1.
  rewrite (index_lt data 1 d0) by lia.
  rewrite (index_lt data (1 - 1) d0) by (simpl; lia).
  cbn [bind]. rewrite pydiv_zero. reflexivity.
Qed.

Lemma individual_zero_time_step_witness :
  calc_individual_cell_statistics (Some [(1, 1); (2, 1)]) [2; 7] 0 "mm"
  = Raise ZeroDivisionError.
Proof. apply (individual_zero_time_step [(1, 1); (2, 1)]). simpl. lia. Defined.

(** With an empty list of areas, a trajectory of two frames or more
    raises [ValueError] at [max(areas)], after the positional statistics. *)
Theorem individual_empty_areas
    (data : list point) (tbf : R) (units : string) :
  (2 <= length data)%nat -> tbf <> 0 ->
  calc_individual_cell_statistics (Some data) [] tbf units = Raise ValueError.
Proof.
  intros Hd Ht. unfold calc_individual_cell_statistics.
  rewrite (index_lt data 0 d0) by lia. cbn [bind].
  rewrite individual_loop_spec by assumption. cbn [bind].
  set (a := individual_trace data tbf (nth 0 data d0) (length data)).
  rewrite (pymax_value (Individual.origin_distances a))
    by (now apply map_range_nonempty).
  cbn [bind].
  rewrite (pydiv_ok _ (len (Individual.origin_distances a)))
    by (apply len_nonzero; now apply map_range_nonempty).
  cbn [bind].
  rewrite (pymax_value (Individual.distances a))
    by (now apply map_range_nonempty).
  cbn [bind].
  rewrite (pymax_value (Individual.speeds a))
    by (now apply map_range_nonempty).
  cbn [bind].
  rewrite (pydiv_ok _ (len (Individual.speeds a)))
    by (apply len_nonzero; now apply map_range_nonempty).
  cbn [bind].
  rewrite (pydiv_ok _ (len (Individual.angle_of_direction a)))
    by (apply len_nonzero; now apply map_range_nonempty).
  cbn [bind].
  rewrite (compass_value (Individual.final_angle a))
    by apply individual_final_angle_range.
  reflexivity.
Qed.

Lemma individual_empty_areas_witness :
  calc_individual_cell_statistics (Some [(1, 1); (2, 1)]) [] 1 "mm"
  = Raise ValueError.
Proof.
  apply (individual_empty_areas [(1, 1); (2, 1)] 1 "mm"); [simpl; lia|lra].
Defined.

(** A label is not among labels that differ from it before the units. *)
Ltac distinct_labels :=
  let H := fresh "H" in
  cbn [In String.append]; intros H;
  repeat (destruct H as [H|H]; [discriminate H|]);
  exact H.

(** X5: for a trajectory of two frames or more, a non-empty list of areas
    and a non-zero time step, the report holds the fifteen labels of the
    function, each once, in the order of the assignments. *)
Theorem individual_report_keys
    (data : list point) (areas : list R) (tbf : R) (units : string) :
  (2 <= length data)%nat -> (1 <= length areas)%nat -> tbf <> 0 ->
  exists r,
    calc_individual_cell_statistics (Some data) areas tbf units = Ok r /\
    keys r = individual_keys units /\
    List.NoDup (keys r).
Proof.
  intros Hd Ha Ht.
  assert (Hne : areas <> []) by (intros ->; simpl in Ha; lia).
  eexists. split; [now apply calc_individual_returns|].
  split; [reflexivity|].
  unfold individual_report, keys. cbn [map fst].
  repeat (constructor; [distinct_labels|]).
  constructor.
Qed.

Lemma individual_report_keys_witness :
  exists r,
    calc_individual_cell_statistics (Some [(1, 1); (4, 5)]) [2; 7] 1 "mm"
      = Ok r /\
    keys r = individual_keys "mm" /\
    List.NoDup (keys r).
Proof.
  apply (individual_report_keys [(1, 1); (4, 5)] [2; 7] 1 "mm");
    simpl; [lia|lia|lra].
Defined.

(** ** Single-cell statistics: relations between the entries *)















(** ** Culture-wide statistics: sizes, growth and confluency *)

Lemma first_measured_split (value zeros rest : list R) (first : R) :
  value = zeros ++ first :: rest -> Forall (fun z => z = 0) zeros ->
  first <> 0 ->
  hd 0 (List.filter nonzero value) = first.
Proof.
  intros -> Hz Hf. induction Hz as [|z zeros Hz0 Hz IH]; cbn [app List.filter].
  - now rewrite nonzero_true.
  - subst z. now rewrite nonzero_0.
Qed.

Lemma areas_lists (area_data : list (Z * list R)) (s0 : Culture.sizes) :
  Forall (fun entry => measured (snd entry)) area_data ->
  exists s,
    for_each area_data Culture.area s0 = Ok s /\
    Culture.final_sizes s = Culture.final_sizes s0 ++ map last_area area_data /\
    Culture.growth s = Culture.growth s0 ++ map growth_of area_data.
Proof.
  intros H. revert s0. induction H as [|e rest He Hrest IH]; intros s0.
  - exists s0. cbn. now rewrite !app_nil_r.
  - cbn [for_each].
    destruct (area_spec e s0 He) as (first & zeros & tail & Hrun & Hf & Hsplit & Hz).
    rewrite Hrun. cbn [bind].
    destruct (IH (area_next e s0 first)) as (s & Hs & Hfs & Hg).
    exists s. split; [assumption|].
    rewrite Hfs, Hg. cbn [area_next Culture.final_sizes Culture.growth map].
    rewrite <- !app_assoc. cbn [app]. unfold growth_of, first_measured, last_area.
    now rewrite (first_measured_split _ _ _ _ Hsplit Hz Hf).
Qed.

(** X9: the confluency entry is the sum of the last areas of the cells
    divided by the area of the frame (a fraction, not a percentage), the
    average final size is that sum divided by the number of cells, and, when
    some cell moves, the average change in size is the mean over the cells of
    the last area minus the first area that is not zero. *)
Theorem culture_sizes_and_growth
    (positional_data : list (Z * option (list point)))
    (area_data : list (Z * list R)) (tbf area_of_frame : R) (units : string) :
  tbf <> 0 -> area_of_frame <> 0 ->
  Forall (fun entry => snd entry <> Some []) positional_data ->
  area_data <> [] ->
  Forall (fun entry => measured (snd entry)) area_data ->
  exists r,
    calc_culture_cell_statistics positional_data area_data tbf area_of_frame
      units = Ok r /\
    dict_get r "Final Frame's Confluency (%)"
      = Some (VNum (sum (map last_area area_data) / area_of_frame)) /\
    dict_get r ("Average Final Size of Cell (" ++ units ++ "^2)")%string
      = Some (VNum (sum (map last_area area_data) / INR (length area_data))) /\
    (List.filter moves positional_data <> [] ->
     dict_get r ("Average Change in Cell Size (" ++ units ++ "^2)")%string
     = Some (VNum (sum (map growth_of area_data) / INR (length area_data)))).
Proof.
  intros Ht Haof Hpd Hne Had.
  destruct (calc_culture_returns positional_data area_data tbf area_of_frame
              units Ht Haof Hpd Hne Had)
    as (a & s & Hp & Hok & Hlen & Hs & Hsok & Hrun).
  destruct (areas_lists area_data Culture.init_sizes Had) as (s' & Hs' & Hfs & Hg).
  unfold Culture.areas in Hs. rewrite Hs in Hs'. injection Hs' as <-.
  cbn [Culture.init_sizes Culture.final_sizes Culture.growth app] in Hfs, Hg.
  exists (culture_report a s area_of_frame units).
  split; [assumption|]. unfold culture_report.
  destruct (Nat.eqb_spec (length (Culture.displacements a)) 0) as [e|ne];
    cbn [negb app].
  - unfold culture_fixed_report. dict_compute. rewrite Hfs.
    unfold len. rewrite length_map.
    repeat split; try reflexivity.
    intros Hmov. rewrite Hlen in e. apply length_zero_iff_nil in e.
    contradiction.
  - unfold culture_movement_report, culture_fixed_report.
    cbn [app]. dict_compute. rewrite Hfs, Hg.
    unfold len. rewrite !length_map.
    repeat split; reflexivity.
Qed.

Lemma culture_sizes_and_growth_witness :
  exists r,
    calc_culture_cell_statistics
      [(1%Z, Some [(1, 1); (4, 5)])] [(1%Z, [0; 0; 5; 8])] 1 100 "mm" = Ok r /\
    dict_get r "Final Frame's Confluency (%)"
      = Some (VNum (sum (map last_area [(1%Z, [0; 0; 5; 8])]) / 100)) /\
    dict_get r "Average Final Size of Cell (mm^2)"
      = Some (VNum (sum (map last_area [(1%Z, [0; 0; 5; 8])])
                    / INR (length [(1%Z, [0; 0; 5; 8])]))) /\
    (List.filter moves [(1%Z, Some [(1, 1); (4, 5)])] <> [] ->
     dict_get r "Average Change in Cell Size (mm^2)"
     = Some (VNum (sum (map growth_of [(1%Z, [0; 0; 5; 8])])
                   / INR (length [(1%Z, [0; 0; 5; 8])])))).
Proof.
  apply (culture_sizes_and_growth
           [(1%Z, Some [(1, 1); (4, 5)])] [(1%Z, [0; 0; 5; 8])] 1 100 "mm").
  - lra.
  - lra.
  - repeat constructor; discriminate.
  - discriminate.
  - constructor; [|constructor].
    exists 5. split; [simpl; auto|lra].
Defined.

(** The growth of the series 0, 0, 5, 8 is 8 - 5: the first area that is
    not zero is the start, not the area of the first frame. *)
Lemma growth_example : growth_of (1%Z, [0; 0; 5; 8]) = 8 - 5.
Proof.
  unfold growth_of, last_area, first_measured, nonzero.
  cbn [snd length Nat.sub nth List.filter].
  decide_R; reflexivity.
Qed.

(** ** Culture-wide statistics: errors *)

(** With a frame area of zero, a culture that is otherwise well formed
    raises [ZeroDivisionError] at the confluency. *)
Theorem culture_zero_frame_area
    (positional_data : list (Z * option (list point)))
    (area_data : list (Z * list R)) (tbf : R) (units : string) :
  tbf <> 0 ->
  Forall (fun entry => snd entry <> Some []) positional_data ->
  area_data <> [] ->
  Forall (fun entry => measured (snd entry)) area_data ->
  calc_culture_cell_statistics positional_data area_data tbf 0 units
  = Raise ZeroDivisionError.
Proof.
  intros Ht Hpd Hne Had.
  destruct (positions_spec tbf positional_data Ht Hpd) as (a & Hp & Hok & Hlen).
  destruct (areas_spec area_data Had) as (s & Hs & (_ & _ & Hfs & Hgr)).
  assert (Hpos : (0 < length area_data)%nat)
    by (destruct area_data; [contradiction|simpl; lia]).
  unfold calc_culture_cell_statistics. rewrite Hp, Hs. cbn [bind].
  destruct (Nat.eqb_spec (length (Culture.displacements a)) 0) as [e|ne];
    cbn [negb bind].
  - now rewrite pydiv_zero.
  - rewrite movement_returns;
      [|assumption|apply length_nonempty; lia|apply length_nonempty; lia].
    cbn [bind]. now rewrite pydiv_zero.
Qed.

Lemma culture_zero_frame_area_witness :
  calc_culture_cell_statistics
    [(1%Z, Some [(1, 1); (4, 5)])] [(1%Z, [0; 0; 5; 8])] 1 0 "mm"
  = Raise ZeroDivisionError.
Proof.
  apply (culture_zero_frame_area
           [(1%Z, Some [(1, 1); (4, 5)])] [(1%Z, [0; 0; 5; 8])] 1 "mm").
  - lra.
  - repeat constructor; discriminate.
  - discriminate.
  - constructor; [|constructor].
    exists 5. split; [simpl; auto|lra].
Defined.

Lemma len_nil {A : Type} : len (@nil A) = 0.
Proof. reflexivity. Qed.

Lemma movement_without_growth (a : Culture.acc) (s : Culture.sizes)
    (units : string) :
  acc_ok a -> Culture.displacements a <> [] -> Culture.growth s = [] ->
  Culture.movement a s units [] = Raise ZeroDivisionError.
Proof.
  intros (H1 & H2 & H3 & H4) Hd Hg.
  assert (Hlen : (0 < length (Culture.displacements a))%nat)
    by (destruct (Culture.displacements a); [contradiction|simpl; lia]).
  assert (Hf : Culture.final_distances a <> [])
    by (apply length_nonempty; lia).
  assert (Ha : Culture.angle_of_direction a <> [])
    by (apply length_nonempty; lia).
  specialize (H3 Hd).
  unfold Culture.movement.
  rewrite (pydiv_ok _ (len (Culture.displacements a))) by (now apply len_nonzero).
  cbn [bind].
  rewrite (pymax_value (Culture.displacements a)),
          (pymin_value (Culture.displacements a)) by assumption.
  cbn [bind].
  rewrite (pydiv_ok _ (len (Culture.final_distances a))) by (now apply len_nonzero).
  cbn [bind].
  rewrite (pydiv_ok _ (len (Culture.speeds a))) by (now apply len_nonzero).
  cbn [bind].
  rewrite (pymax_value (Culture.speeds a)),
          (pymin_value (Culture.speeds a)) by assumption.
  cbn [bind].
  rewrite (pydiv_ok _ (len (Culture.angle_of_direction a)))
    by (now apply len_nonzero).
  cbn [bind].
  rewrite compass_value by (now apply mean_bounds).
  cbn [bind].
  rewrite Hg, (@len_nil R), pydiv_zero. reflexivity.
Qed.

(** X10: without any area series the computation raises
    [ZeroDivisionError], whatever the trajectories: at the average change in
    size when some cell moves, at the confluency or at the average final size
    otherwise.  The empty culture is one such input. *)
Theorem culture_without_areas_raises
    (positional_data : list (Z * option (list point)))
    (tbf area_of_frame : R) (units : string) :
  tbf <> 0 ->
  Forall (fun entry => snd entry <> Some []) positional_data ->
  calc_culture_cell_statistics positional_data [] tbf area_of_frame units
  = Raise ZeroDivisionError.
Proof.
  intros Ht Hpd.
  destruct (positions_spec tbf positional_data Ht Hpd) as (a & Hp & Hok & Hlen).
  unfold calc_culture_cell_statistics. rewrite Hp. cbn [bind Culture.areas for_each].
  destruct (Nat.eqb_spec (length (Culture.displacements a)) 0) as [e|ne];
    cbn [negb bind].
  - unfold pydiv at 1. destruct (Req_dec_T area_of_frame 0); [reflexivity|].
    cbn [bind Culture.init_sizes Culture.final_sizes].
    now rewrite (@len_nil R), pydiv_zero.
  - rewrite movement_without_growth;
      [reflexivity|assumption|apply length_nonempty; lia|reflexivity].
Qed.

Lemma culture_without_areas_raises_witness :
  calc_culture_cell_statistics [] [] 1 100 "mm" = Raise ZeroDivisionError.
Proof.
  apply (culture_without_areas_raises [] 1 100 "mm"); [lra|constructor].
Defined.

Lemma areas_prefix (before after : list (Z * list R)) (e : Z * list R) :
  Forall (fun entry => measured (snd entry)) before ->
  exists s,
    Culture.areas (before ++ e :: after)
    = let! s' := Culture.area e s in for_each after Culture.area s'.
Proof.
  intros Hb. unfold Culture.areas.
  destruct (areas_from [] before Culture.init_sizes Hb) as (s & Hs & _).
  { repeat split; cbn; auto; left; repeat split; auto. }
  exists s. rewrite for_each_app, Hs. reflexivity.
Qed.

(** X11: the first cell whose area series is unusable stops the
    computation after the loop over the trajectories: a series that is empty
    raises [ValueError] (at [min]), a series of zeros only raises
    [StopIteration] (at [next]); no report is returned. *)
Theorem culture_unusable_area_series
    (positional_data : list (Z * option (list point)))
    (before after : list (Z * list R)) (key : Z) (value : list R)
    (tbf area_of_frame : R) (units : string) :
  tbf <> 0 ->
  Forall (fun entry => snd entry <> Some []) positional_data ->
  Forall (fun entry => measured (snd entry)) before ->
  Forall (fun z => z = 0) value ->
  calc_culture_cell_statistics positional_data
    (before ++ (key, value) :: after) tbf area_of_frame units
  = Raise (if Nat.eqb (length value) 0 then ValueError else StopIteration).
Proof.
  intros Ht Hpd Hb Hz.
  destruct (positions_spec tbf positional_data Ht Hpd) as (a & Hp & _).
  destruct (areas_prefix before after (key, value) Hb) as (s & Hs).
  unfold calc_culture_cell_statistics. rewrite Hp, Hs. cbn [bind].
  destruct value as [|v value].
  - reflexivity.
  - rewrite area_unmeasured by (assumption || discriminate). reflexivity.
Qed.

Lemma culture_unusable_area_series_witness :
  calc_culture_cell_statistics [(1%Z, Some [(1, 1); (4, 5)])]
    ([(1%Z, [0; 5])] ++ (2%Z, [0; 0]) :: []) 1 100 "mm"
  = Raise (if Nat.eqb (length [0; 0]) 0 then ValueError else StopIteration).
Proof.
  apply (culture_unusable_area_series [(1%Z, Some [(1, 1); (4, 5)])]
           [(1%Z, [0; 5])] [] 2 [0; 0] 1 100 "mm").
  - lra.
  - repeat constructor; discriminate.
  - constructor; [|constructor]. exists 5. split; [simpl; auto|lra].
  - repeat constructor.
Defined.

(** X12: a cell whose trajectory is an empty sequence raises [IndexError]
    at [data[0][0]], whatever the areas; the cells before it have been
    processed. *)
Theorem culture_empty_trajectory_raises
    (before after : list (Z * option (list point))) (key : Z)
    (area_data : list (Z * list R)) (tbf area_of_frame : R) (units : string) :
  tbf <> 0 ->
  Forall (fun entry => snd entry <> Some []) before ->
  calc_culture_cell_statistics (before ++ (key, Some []) :: after)
    area_data tbf area_of_frame units
  = Raise IndexError.
Proof.
  intros Ht Hb.
  destruct (positions_spec tbf before Ht Hb) as (a & Hp & _).
  unfold calc_culture_cell_statistics, Culture.positions in *.
  rewrite for_each_app, Hp. reflexivity.
Qed.

Lemma culture_empty_trajectory_raises_witness :
  calc_culture_cell_statistics
    ([(1%Z, Some [(1, 1); (4, 5)])] ++ (2%Z, Some []) :: [])
    [(1%Z, [5]); (2%Z, [6])] 1 100 "mm"
  = Raise IndexError.
Proof.
  apply (culture_empty_trajectory_raises [(1%Z, Some [(1, 1); (4, 5)])] []
           2 [(1%Z, [5]); (2%Z, [6])] 1 100 "mm").
  - lra.
  - repeat constructor; discriminate.
Defined.

(** ** Culture-wide statistics: the shape of the report *)

(** X13: when some cell records a displacement, the report holds the ten
    movement labels followed by the six labels written on every call, each
    once, and the compass entry is an entry of the table. *)
Theorem culture_moving_report_keys
    (positional_data : list (Z * option (list point)))
    (area_data : list (Z * list R)) (tbf area_of_frame : R) (units : string) :
  tbf <> 0 -> area_of_frame <> 0 ->
  Forall (fun entry => snd entry <> Some []) positional_data ->
  area_data <> [] ->
  Forall (fun entry => measured (snd entry)) area_data ->
  List.filter moves positional_data <> [] ->
  exists r c,
    calc_culture_cell_statistics positional_data area_data tbf area_of_frame
      units = Ok r /\
    keys r = movement_keys units ++ fixed_keys units /\
    List.NoDup (keys r) /\
    dict_get r "Average Compass Direction Moved" = Some (VStr c) /\
    In c compass_brackets.
Proof.
  intros Ht Haof Hpd Hne Had Hmov.
  destruct (calc_culture_returns positional_data area_data tbf area_of_frame
              units Ht Haof Hpd Hne Had)
    as (a & s & Hp & (H1 & H2 & H3 & H4) & Hlen & Hs & Hsok & Hrun).
  assert (Hn : length (Culture.displacements a) <> 0%nat).
  { rewrite Hlen. intros E. now apply length_zero_iff_nil in E. }
  assert (Ha : Culture.angle_of_direction a <> [])
    by (apply length_nonempty; lia).
  destruct (compass_in_table _ (mean_bounds _ 0 360 Ha H4)) as [_ (c & Hc & Hin)].
  exists (culture_report a s area_of_frame units), c.
  split; [assumption|]. unfold culture_report.
  destruct (Nat.eqb_spec (length (Culture.displacements a)) 0) as [e|_];
    [contradiction|].
  cbn [negb]. unfold culture_movement_report, culture_fixed_report.
  cbn [app]. split; [reflexivity|]. split.
  - unfold keys. cbn [map fst].
    repeat (constructor; [distinct_labels|]).
    constructor.
  - dict_compute. rewrite Hc. auto.
Qed.

Lemma culture_moving_report_keys_witness :
  exists r c,
    calc_culture_cell_statistics
      [(1%Z, Some [(1, 1); (4, 5)])] [(1%Z, [0; 0; 5; 8])] 1 100 "mm" = Ok r /\
    keys r = movement_keys "mm" ++ fixed_keys "mm" /\
    List.NoDup (keys r) /\
    dict_get r "Average Compass Direction Moved" = Some (VStr c) /\
    In c compass_brackets.
Proof.
  apply (culture_moving_report_keys
           [(1%Z, Some [(1, 1); (4, 5)])] [(1%Z, [0; 0; 5; 8])] 1 100 "mm").
  - lra.
  - lra.
  - repeat constructor; discriminate.
  - discriminate.
  - constructor; [|constructor].
    exists 5. split; [simpl; auto|lra].
  - unfold moves, produces_displacement, tracked, nonzero.
    cbn [List.filter snd length Nat.leb Nat.sub nth fst andb].
    decide_R; discriminate.
Defined.

Lemma cell_max_bounds (e : Z * list R) (v : R) :
  In v (snd e) -> v <= cell_max e.
Proof.
  intros Hv. unfold cell_max.
  assert (Hne : snd e <> []) by (intros E; rewrite E in Hv; destruct Hv).
  destruct (pymax_spec (snd e) Hne) as (m & Hm & _ & Hle).
  rewrite Hm. cbn [value_of]. now apply Hle.
Qed.

(** X14: the largest-cell entry is an upper bound of every area of every
    cell and is never negative (it starts at 0); when it is positive it is an
    area of the cell whose id is reported. *)
Theorem culture_largest_bounds_every_area
    (positional_data : list (Z * option (list point)))
    (area_data : list (Z * list R)) (tbf area_of_frame : R) (units : string) :
  tbf <> 0 -> area_of_frame <> 0 ->
  Forall (fun entry => snd entry <> Some []) positional_data ->
  area_data <> [] ->
  Forall (fun entry => measured (snd entry)) area_data ->
  exists r size id,
    calc_culture_cell_statistics positional_data area_data tbf area_of_frame
      units = Ok r /\
    dict_get r ("Largest Cell (" ++ units ++ "^2)")%string = Some (VNum size) /\
    dict_get r "Largest Cell's ID" = Some (VId id) /\
    0 <= size /\
    (forall e v, In e area_data -> In v (snd e) -> v <= size) /\
    (0 < size -> exists value, In (id, value) area_data /\ In size value).
Proof.
  intros Ht Haof Hpd Hne Had.
  destruct (calc_culture_returns positional_data area_data tbf area_of_frame
              units Ht Haof Hpd Hne Had)
    as (a & s & Hp & Hok & Hlen & Hs & (Hl & _) & Hrun).
  exists (culture_report a s area_of_frame units),
    (Culture.max_cell_size s), (Culture.max_cell_id s).
  split; [assumption|].
  assert (Hget : forall k,
    dict_get (culture_movement_report a s units) k = None ->
    dict_get (culture_report a s area_of_frame units) k
    = dict_get (culture_fixed_report s area_of_frame units) k).
  { intros k Hk. unfold culture_report.
    destruct (negb (length (Culture.displacements a) =? 0)%nat);
      [|reflexivity].
    generalize dependent (culture_movement_report a s units).
    intros l Hk. induction l as [|[k' v] l IH]; [reflexivity|].
    cbn [app dict_get] in *. destruct (String.eqb k' k); [discriminate|auto]. }
  rewrite !Hget by reflexivity.
  unfold culture_fixed_report. dict_compute.
  split; [reflexivity|]. split; [reflexivity|].
  destruct Hl as [(H0 & _ & Hall)|(b & e0 & af & Hsplit & Hsz & Hid & Hpos & Hb & Ha)].
  - rewrite H0. split; [lra|]. split; [|intros Hpos; exfalso; lra].
    intros e v He Hv. pose proof (cell_max_bounds e v Hv) as Hle.
    pose proof (proj1 (List.Forall_forall _ _) Hall e He) as Hx.
    cbv beta in Hx. lra.
  - rewrite Hsz. split; [lra|]. split.
    + intros e v He Hv. pose proof (cell_max_bounds e v Hv) as Hle.
      rewrite Hsplit in He. apply in_app_or in He.
      destruct He as [He|[He|He]].
      * pose proof (proj1 (List.Forall_forall _ _) Hb e He) as Hx.
        cbv beta in Hx. lra.
      * subst e. lra.
      * pose proof (proj1 (List.Forall_forall _ _) Ha e He) as Hx.
        cbv beta in Hx. lra.
    + intros _. exists (snd e0). split.
      * rewrite Hid, Hsplit. apply in_or_app. right. left. now destruct e0.
      * unfold cell_max in *.
        assert (Hne0 : snd e0 <> []).
        { intros E. rewrite E in Hpos. cbn in Hpos. lra. }
        destruct (pymax_spec (snd e0) Hne0) as (m & Hm & Hin & _).
        rewrite Hm. exact Hin.
Qed.

Lemma culture_largest_bounds_every_area_witness :
  exists r size id,
    calc_culture_cell_statistics
      [(1%Z, Some [(1, 1); (4, 5)])] [(1%Z, [0; 0; 5; 8])] 1 100 "mm" = Ok r /\
    dict_get r "Largest Cell (mm^2)" = Some (VNum size) /\
    dict_get r "Largest Cell's ID" = Some (VId id) /\
    0 <= size /\
    (forall e v, In e [(1%Z, [0; 0; 5; 8])] -> In v (snd e) -> v <= size) /\
    (0 < size ->
     exists value, In (id, value) [(1%Z, [0; 0; 5; 8])] /\ In size value).
Proof.
  apply (culture_largest_bounds_every_area
           [(1%Z, Some [(1, 1); (4, 5)])] [(1%Z, [0; 0; 5; 8])] 1 100 "mm").
  - lra.
  - lra.
  - repeat constructor; discriminate.
  - discriminate.
  - constructor; [|constructor].
    exists 5. split; [simpl; auto|lra].
Defined.

(** ** Culture-wide statistics: trajectories that are None *)

Lemma positions_skip_none (tbf : R)
    (positional_data : list (Z * option (list point))) (a : Culture.acc) :
  for_each positional_data (Culture.cell tbf) a
  = for_each (List.filter has_trajectory positional_data) (Culture.cell tbf) a.
Proof.
  revert a. induction positional_data as [|[key data] rest IH]; intros a;
    [reflexivity|].
  destruct data as [data|]; cbn [List.filter]; unfold has_trajectory at 1;
    cbn [snd].
  - cbn [for_each]. destruct (Culture.cell tbf (key, Some data) a);
      cbn [bind]; [apply IH|reflexivity].
  - cbn [for_each Culture.cell snd bind]. apply IH.
Qed.

(** X15: a cell whose trajectory is None takes no part in the movement
    statistics: the outcome is that of the same call without these cells in
    [positional_data]; their areas still count. *)
Theorem culture_ignores_none_trajectories
    (positional_data : list (Z * option (list point)))
    (area_data : list (Z * list R)) (tbf area_of_frame : R) (units : string) :
  calc_culture_cell_statistics positional_data area_data tbf area_of_frame units
  = calc_culture_cell_statistics (List.filter has_trajectory positional_data)
      area_data tbf area_of_frame units.
Proof.
  unfold calc_culture_cell_statistics, Culture.positions.
  now rewrite positions_skip_none.
Qed.

(** The loop over the trajectories records one displacement, one final
    distance and one final angle for each cell that has two frames or more
    and a last frame that is not the placeholder, and nothing for the other
    cells; every final angle lies in [0, 360]. *)
Theorem culture_one_displacement_per_moving_cell
    (positional_data : list (Z * option (list point))) (tbf : R) :
  tbf <> 0 ->
  Forall (fun entry => snd entry <> Some []) positional_data ->
  exists a,
    Culture.positions positional_data tbf = Ok a /\
    length (Culture.displacements a)
      = length (List.filter moves positional_data) /\
    length (Culture.final_distances a)
      = length (List.filter moves positional_data) /\
    length (Culture.angle_of_direction a)
      = length (List.filter moves positional_data) /\
    Forall (fun x => 0 <= x <= 360) (Culture.angle_of_direction a).
Proof.
  intros Ht Hpd.
  destruct (positions_spec tbf positional_data Ht Hpd)
    as (a & Hp & (H1 & H2 & H3 & H4) & Hlen).
  exists a. repeat split; try assumption; lia.
Qed.

Lemma culture_one_displacement_per_moving_cell_witness :
  exists a,
    Culture.positions
      [(1%Z, Some [(1, 1); (4, 5)]); (2%Z, Some [(7, 7)]); (3%Z, None)] 1
      = Ok a /\
    length (Culture.displacements a)
      = length (List.filter moves
          [(1%Z, Some [(1, 1); (4, 5)]); (2%Z, Some [(7, 7)]); (3%Z, None)]) /\
    length (Culture.final_distances a)
      = length (List.filter moves
          [(1%Z, Some [(1, 1); (4, 5)]); (2%Z, Some [(7, 7)]); (3%Z, None)]) /\
    length (Culture.angle_of_direction a)
      = length (List.filter moves
          [(1%Z, Some [(1, 1); (4, 5)]); (2%Z, Some [(7, 7)]); (3%Z, None)]) /\
    Forall (fun x => 0 <= x <= 360) (Culture.angle_of_direction a).
Proof.
  apply (culture_one_displacement_per_moving_cell
           [(1%Z, Some [(1, 1); (4, 5)]); (2%Z, Some [(7, 7)]); (3%Z, None)] 1).
  - lra.
  - repeat constructor; discriminate.
Defined.

(** ** File names *)

Lemma append_nil (t : string) : (EmptyString ++ t)%string = t.
Proof. reflexivity. Qed.

Lemma append_cons (c : ascii) (s t : string) :
  (String c s ++ t)%string = String c (s ++ t).
Proof. reflexivity. Qed.

Lemma string_length_append (s t : string) :
  String.length (s ++ t) = (String.length s + String.length t)%nat.
Proof.
  induction s as [|c s IH]; [reflexivity|].
  rewrite append_cons. simpl. now rewrite IH.
Qed.

Lemma substring_all (s : string) : substring 0 (String.length s) s = s.
Proof. induction s as [|c s IH]; simpl; [reflexivity|now rewrite IH]. Qed.

Lemma substring_skip (p s : string) (m : nat) :
  substring (String.length p) m (p ++ s) = substring 0 m s.
Proof.
  induction p as [|c p IH]; [reflexivity|].
  rewrite append_cons. simpl. exact IH.
Qed.

Lemma substring_split (s : string) (k : nat) :
  (k <= String.length s)%nat ->
  s = (substring 0 k s ++ substring k (String.length s - k) s)%string.
Proof.
  revert k. induction s as [|c s IH]; intros k Hk.
  - destruct k; reflexivity.
  - destruct k as [|k].
    + simpl. now rewrite substring_all.
    + simpl. rewrite append_cons. f_equal. apply IH. simpl in Hk. lia.
Qed.

(** The test [filename.endswith(suffix)] holds exactly for the names
    that are some prefix followed by the suffix. *)
Theorem endswith_iff_suffix (s suffix : string) :
  Csv.endswith s suffix = true <-> exists prefix, s = (prefix ++ suffix)%string.
Proof.
  unfold Csv.endswith. split.
  - intros H. apply andb_true_iff in H. destruct H as [Hlen Heq].
    apply Nat.leb_le in Hlen. apply String.eqb_eq in Heq.
    exists (substring 0 (String.length s - String.length suffix) s).
    pose proof (substring_split s (String.length s - String.length suffix)
                  ltac:(lia)) as Hsplit.
    replace (String.length s - (String.length s - String.length suffix))%nat
      with (String.length suffix) in Hsplit by lia.
    now rewrite Heq in Hsplit.
  - intros [prefix ->]. rewrite string_length_append.
    apply andb_true_iff. split; [apply Nat.leb_le; lia|].
    apply String.eqb_eq.
    replace (String.length prefix + String.length suffix
             - String.length suffix)%nat
      with (String.length prefix) by lia.
    rewrite substring_skip. apply substring_all.
Qed.

(** ** The CSV files *)

Lemma writerow_insert (filename : string) (row : list Csv.cell)
    (rows : list (list Csv.cell)) (fs : Csv.filesystem) :
  Csv.writerow filename row (<[filename := rows]> fs)
  = <[filename := rows ++ [row]]> fs.
Proof. unfold Csv.writerow. now rewrite alter_insert_eq. Qed.

Lemma lookup_key_head {V : Type} (key : Z) (v : V) (rest : list (Z * V)) :
  Csv.lookup_key ((key, v) :: rest) key = Ok v.
Proof. cbn [Csv.lookup_key]. now rewrite Z.eqb_refl. Qed.

Lemma write_rows_ok (filename : string)
    (positional_data : list (Z * list point)) (area_data : list (Z * list R))
    (ids : list Z) (rows : list (list Csv.cell)) (fs : Csv.filesystem) :
  Forall (has_key positional_data) ids ->
  Forall (has_key area_data) ids ->
  Csv.write_rows filename ids positional_data area_data (<[filename := rows]> fs)
  = (Ok tt,
     <[filename := rows ++ culture_rows positional_data area_data ids]> fs).
Proof.
  intros Hp. revert rows.
  induction Hp as [|id ids [c Hc] Hp IH]; intros rows Ha.
  - cbn. now rewrite app_nil_r.
  - inversion Ha as [|? ? [a Hida] Ha']; subst.
    cbn [Csv.write_rows]. rewrite Hc, Hida, writerow_insert, IH by assumption.
    cbn [culture_rows map]. rewrite Hc, Hida. cbn [value_of].
    now rewrite <- app_assoc.
Qed.

Lemma write_rows_missing (filename : string)
    (positional_data : list (Z * list point)) (area_data : list (Z * list R))
    (before after : list Z) (id : Z) (rows : list (list Csv.cell))
    (fs : Csv.filesystem) :
  Forall (has_key positional_data) (before ++ [id]) ->
  Forall (has_key area_data) before ->
  Csv.lookup_key area_data id = Raise KeyError ->
  Csv.write_rows filename (before ++ id :: after) positional_data area_data
    (<[filename := rows]> fs)
  = (Raise KeyError,
     <[filename := rows ++ culture_rows positional_data area_data before]> fs).
Proof.
  revert rows. induction before as [|b before IH]; intros rows Hp Ha Hid.
  - cbn [app Csv.write_rows culture_rows map].
    inversion Hp as [|? ? [c Hc] _]; subst. rewrite Hc, Hid.
    now rewrite app_nil_r.
  - cbn [app] in *. inversion Hp as [|? ? [c Hc] Hp']; subst.
    inversion Ha as [|? ? [a Hba] Ha']; subst.
    cbn [Csv.write_rows]. rewrite Hc, Hba, writerow_insert, IH by assumption.
    cbn [culture_rows map]. rewrite Hc, Hba. cbn [value_of].
    now rewrite <- app_assoc.
Qed.

Lemma keys_have_entries {V : Type} (d : list (Z * V)) :
  Forall (has_key d) (map fst d).
Proof.
  apply List.Forall_forall. intros key Hin. apply in_map_iff in Hin.
  destruct Hin as ([k v] & <- & Hin). cbn [fst].
  unfold has_key. induction d as [|[k' v'] d IH]; [destruct Hin|].
  cbn [Csv.lookup_key]. destruct (Z.eqb_spec k' k) as [->|Hne].
  - now exists v'.
  - destruct Hin as [Hin|Hin]; [congruence|]. now apply IH.
Qed.

Lemma lookup_key_raises {V : Type} (d : list (Z * V)) (key : Z) (e : pyexn) :
  Csv.lookup_key d key = Raise e -> e = KeyError.
Proof.
  induction d as [|[k v] d IH]; cbn [Csv.lookup_key]; intros H.
  - now injection H.
  - destruct (Z.eqb k key); [discriminate|auto].
Qed.

(** X16: on a path ending in .csv that does not exist, with at least one
    cell and an area series for every cell, [culture_to_csv_file] returns
    and the file holds the header row (the positional headers followed by
    the area headers) and then one row per cell, in the order of the cells:
    the id, the coordinates flattened, the areas. *)
Theorem culture_csv_creates_file
    (filename : string)
    (positional_data : list (Z * list point)) (area_data : list (Z * list R))
    (positional_headers area_headers : option (list string))
    (fs : Csv.filesystem) :
  Csv.endswith filename ".csv" = true ->
  fs !! filename = None ->
  positional_data <> [] ->
  Forall (has_key area_data) (map fst positional_data) ->
  culture_to_csv_file filename positional_data area_data
    positional_headers area_headers fs
  = (Ok tt,
     <[filename :=
         map Csv.CStr (default [] positional_headers ++ default [] area_headers)
         :: culture_rows positional_data area_data (map fst positional_data)]>
       fs).
Proof.
  intros Hext Hnew Hne Hareas. unfold culture_to_csv_file, Csv.path_exists.
  rewrite Hext, Hnew. cbn [negb].
  destruct positional_data as [|[id0 c0] rest]; [contradiction|].
  cbn [map fst]. unfold index at 1. cbn [lookup list_lookup bind].
  rewrite lookup_key_head.
  unfold Csv.open_w. rewrite writerow_insert. cbn [app].
  rewrite write_rows_ok.
  - reflexivity.
  - apply (keys_have_entries ((id0, c0) :: rest)).
  - exact Hareas.
Qed.

Lemma culture_csv_creates_file_witness :
  culture_to_csv_file "cells.csv" [(7%Z, [(1, 2); (3, 4)])] [(7%Z, [5; 6])]
    (Some ["id"; "x"; "y"]%string) (Some ["area"]%string) ∅
  = (Ok tt,
     <["cells.csv"%string :=
         map Csv.CStr (default [] (Some ["id"; "x"; "y"]%string)
                       ++ default [] (Some ["area"]%string))
         :: culture_rows [(7%Z, [(1, 2); (3, 4)])] [(7%Z, [5; 6])]
              (map fst [(7%Z, [(1, 2); (3, 4)])])]> ∅).
Proof.
  apply (culture_csv_creates_file "cells.csv").
  - reflexivity.
  - apply lookup_empty.
  - discriminate.
  - constructor; [|constructor]. exists [5; 6]. reflexivity.
Defined.

(** With no cell at all, [culture_to_csv_file] raises [IndexError] at
    [ids[0]] before the file is opened: no file is created. *)
Theorem culture_csv_no_cells
    (filename : string) (area_data : list (Z * list R))
    (positional_headers area_headers : option (list string))
    (fs : Csv.filesystem) :
  Csv.endswith filename ".csv" = true ->
  fs !! filename = None ->
  culture_to_csv_file filename [] area_data positional_headers area_headers fs
  = (Raise IndexError, fs).
Proof.
  intros Hext Hnew. unfold culture_to_csv_file, Csv.path_exists.
  rewrite Hext, Hnew. reflexivity.
Qed.

Lemma culture_csv_no_cells_witness :
  culture_to_csv_file "cells.csv" [] [(7%Z, [5; 6])] None None ∅
  = (Raise IndexError, ∅).
Proof.
  apply (culture_csv_no_cells "cells.csv"); [reflexivity|apply lookup_empty].
Defined.

(** X17: when a cell has no area series, [culture_to_csv_file] raises
    [KeyError] and leaves a file behind: the header row and the rows of the
    cells before that cell. *)
Theorem culture_csv_missing_areas
    (filename : string)
    (before after : list (Z * list point)) (id : Z) (coordinates : list point)
    (area_data : list (Z * list R))
    (positional_headers area_headers : option (list string))
    (fs : Csv.filesystem) :
  Csv.endswith filename ".csv" = true ->
  fs !! filename = None ->
  Forall (has_key area_data) (map fst before) ->
  Csv.lookup_key area_data id = Raise KeyError ->
  let positional_data := before ++ (id, coordinates) :: after in
  culture_to_csv_file filename positional_data area_data
    positional_headers area_headers fs
  = (Raise KeyError,
     <[filename :=
         map Csv.CStr (default [] positional_headers ++ default [] area_headers)
         :: culture_rows positional_data area_data (map fst before)]> fs).
Proof.
  intros Hext Hnew Hareas Hid positional_data.
  unfold culture_to_csv_file, Csv.path_exists.
  rewrite Hext, Hnew. cbn [negb].
  assert (Hkeys : Forall (has_key positional_data) (map fst positional_data))
    by apply keys_have_entries.
  assert (Hfirst : exists first,
    (let! id0 := index (map fst positional_data) 0 in
     Csv.lookup_key positional_data id0) = Ok first).
  { destruct positional_data as [|[id0 c0] rest] eqn:E.
    - destruct before; discriminate.
    - exists c0. cbn [map fst]. unfold index. cbn [lookup list_lookup bind].
      apply lookup_key_head. }
  destruct Hfirst as [first Hfirst]. rewrite Hfirst.
  unfold Csv.open_w. rewrite writerow_insert. cbn [app].
  unfold positional_data at 1. rewrite map_app. cbn [map fst].
  rewrite write_rows_missing; [reflexivity| |assumption|assumption].
  unfold positional_data in Hkeys. rewrite map_app in Hkeys. cbn [map fst] in Hkeys.
  apply Forall_app in Hkeys. destruct Hkeys as [Hb Hrest].
  apply Forall_app. split; [assumption|].
  inversion Hrest; subst. constructor; [assumption|constructor].
Qed.

Lemma culture_csv_missing_areas_witness :
  culture_to_csv_file "cells.csv"
    ([(7%Z, [(1, 2)])] ++ (8%Z, [(3, 4)]) :: []) [(7%Z, [5])] None None ∅
  = (Raise KeyError,
     <["cells.csv"%string :=
         map Csv.CStr (default [] None ++ default [] None)
         :: culture_rows ([(7%Z, [(1, 2)])] ++ (8%Z, [(3, 4)]) :: [])
              [(7%Z, [5])] (map fst [(7%Z, [(1, 2)])])]> ∅).
Proof.
  apply (culture_csv_missing_areas "cells.csv" [(7%Z, [(1, 2)])] [] 8
           [(3, 4)] [(7%Z, [5])] None None ∅).
  - reflexivity.
  - apply lookup_empty.
  - constructor; [|constructor]. exists [5]. reflexivity.
  - reflexivity.
Defined.

Lemma write_rows_other (filename other : string) (ids : list Z)
    (positional_data : list (Z * list point)) (area_data : list (Z * list R))
    (fs : Csv.filesystem) :
  other <> filename ->
  snd (Csv.write_rows filename ids positional_data area_data fs) !! other
  = fs !! other.
Proof.
  intros Hne. revert fs. induction ids as [|id ids IH]; intros fs; [reflexivity|].
  cbn [Csv.write_rows].
  destruct (Csv.lookup_key positional_data id); [|reflexivity].
  destruct (Csv.lookup_key area_data id); [|reflexivity].
  rewrite IH. unfold Csv.writerow. now rewrite lookup_alter_ne.
Qed.

Lemma write_rows_keeps (filename : string) (ids : list Z)
    (positional_data : list (Z * list point)) (area_data : list (Z * list R))
    (fs : Csv.filesystem) :
  is_Some (fs !! filename) ->
  is_Some (snd (Csv.write_rows filename ids positional_data area_data fs)
             !! filename).
Proof.
  revert fs. induction ids as [|id ids IH]; intros fs H; [assumption|].
  cbn [Csv.write_rows].
  destruct (Csv.lookup_key positional_data id); [|assumption].
  destruct (Csv.lookup_key area_data id); [|assumption].
  apply IH. unfold Csv.writerow. rewrite lookup_alter_eq.
  destruct H as [rows ->]. now eexists.
Qed.

(** X18: once [culture_to_csv_file] has opened its file, whether it then
    returns or raises [KeyError], the file exists, and every later culture
    export to the same path raises "File already exists" and changes
    nothing: the path of a failed export has to be removed before a retry. *)
Theorem culture_csv_second_export_fails
    (filename : string)
    (positional_data : list (Z * list point)) (area_data : list (Z * list R))
    (positional_headers area_headers : option (list string))
    (fs : Csv.filesystem) :
  Csv.endswith filename ".csv" = true ->
  fs !! filename = None ->
  positional_data <> [] ->
  let fs1 := snd (culture_to_csv_file filename positional_data area_data
                    positional_headers area_headers fs) in
  is_Some (fs1 !! filename) /\
  forall positional_data' area_data' positional_headers' area_headers',
    culture_to_csv_file filename positional_data' area_data'
      positional_headers' area_headers' fs1
    = (Raise (Exception "File already exists"), fs1).
Proof.
  intros Hext Hnew Hne fs1.
  assert (Hfile : is_Some (fs1 !! filename)).
  { unfold fs1, culture_to_csv_file, Csv.path_exists.
    rewrite Hext, Hnew. cbn [negb].
    destruct positional_data as [|[id0 c0] rest]; [contradiction|].
    cbn [map fst]. unfold index at 1. cbn [lookup list_lookup bind].
    rewrite lookup_key_head.
    apply write_rows_keeps. unfold Csv.open_w. rewrite writerow_insert.
    rewrite lookup_insert_eq. now eexists. }
  split; [assumption|]. intros pd' ad' ph' ah'.
  unfold culture_to_csv_file, Csv.path_exists. rewrite Hext.
  destruct Hfile as [rows ->]. reflexivity.
Qed.

Lemma culture_csv_second_export_fails_witness :
  is_Some (snd (culture_to_csv_file "cells.csv"
                  [(7%Z, [(1, 2)]); (8%Z, [(3, 4)])] [(7%Z, [5])] None None ∅)
             !! "cells.csv"%string) /\
  forall positional_data' area_data' positional_headers' area_headers',
    culture_to_csv_file "cells.csv" positional_data' area_data'
      positional_headers' area_headers'
      (snd (culture_to_csv_file "cells.csv"
              [(7%Z, [(1, 2)]); (8%Z, [(3, 4)])] [(7%Z, [5])] None None ∅))
    = (Raise (Exception "File already exists"),
       snd (culture_to_csv_file "cells.csv"
              [(7%Z, [(1, 2)]); (8%Z, [(3, 4)])] [(7%Z, [5])] None None ∅)).
Proof.
  apply (culture_csv_second_export_fails "cells.csv"
           [(7%Z, [(1, 2)]); (8%Z, [(3, 4)])] [(7%Z, [5])] None None ∅).
  - reflexivity.
  - apply lookup_empty.
  - discriminate.
Defined.

(** ** [individual_to_csv_file] *)

Lemma frame_row_ok (data : list (string * list R)) (i : nat) :
  Forall (fun entry => (i < length (snd entry))%nat) data ->
  frame_row data i
  = Ok (map (fun entry => Csv.CNum (nth i (snd entry) 0)) data).
Proof.
  induction 1 as [|[key column] rest Hc Hrest IH]; [reflexivity|].
  cbn [frame_row map snd]. cbn [snd] in Hc.
  rewrite (index_lt column i 0) by assumption. cbn [bind].
  rewrite IH. reflexivity.
Qed.

Lemma frame_row_short (data : list (string * list R)) (i : nat) :
  Exists (fun entry => (length (snd entry) <= i)%nat) data ->
  frame_row data i = Raise IndexError.
Proof.
  induction 1 as [[key column] rest Hc|[key column] rest Hrest IH];
    cbn [frame_row].
  - cbn [snd] in Hc. now rewrite index_ge.
  - unfold index. destruct (column !! i); [|reflexivity].
    cbn [bind]. now rewrite IH.
Qed.

Lemma write_frames_seq (filename : string) (data : list (string * list R))
    (lo count : nat) (rows : list (list Csv.cell)) (fs : Csv.filesystem) :
  Forall (fun entry => (lo + count <= length (snd entry))%nat) data ->
  write_frames filename data (seq lo count) (<[filename := rows]> fs)
  = (Ok tt,
     <[filename :=
         rows ++ map (fun i => map (fun entry => Csv.CNum (nth i (snd entry) 0))
                                data) (seq lo count)]> fs).
Proof.
  revert lo rows. induction count as [|count IH]; intros lo rows H.
  - cbn. now rewrite app_nil_r.
  - cbn [seq write_frames map].
    rewrite frame_row_ok
      by (eapply List.Forall_impl; [|exact H]; cbn; intros; lia).
    rewrite writerow_insert, IH
      by (eapply List.Forall_impl; [|exact H]; cbn; intros; lia).
    now rewrite <- app_assoc.
Qed.

Lemma write_frames_stop (filename : string) (data : list (string * list R))
    (i : nat) (rest : list nat) (fs : Csv.filesystem) :
  Exists (fun entry => (length (snd entry) <= i)%nat) data ->
  write_frames filename data (i :: rest) fs = (Raise IndexError, fs).
Proof. intros H. cbn [write_frames]. now rewrite frame_row_short. Qed.

Lemma write_frames_app (filename : string) (data : list (string * list R))
    (l1 l2 : list nat) (fs : Csv.filesystem) :
  write_frames filename data (l1 ++ l2) fs
  = match write_frames filename data l1 fs with
    | (Ok _, fs') => write_frames filename data l2 fs'
    | (Raise e, fs') => (Raise e, fs')
    end.
Proof.
  revert fs. induction l1 as [|i l1 IH]; intros fs; [reflexivity|].
  cbn [app write_frames]. destruct (frame_row data i); [apply IH|reflexivity].
Qed.

Lemma write_frames_other (filename other : string)
    (data : list (string * list R)) (frames : list nat) (fs : Csv.filesystem) :
  other <> filename ->
  snd (write_frames filename data frames fs) !! other = fs !! other.
Proof.
  intros Hne. revert fs. induction frames as [|i frames IH]; intros fs;
    [reflexivity|].
  cbn [write_frames]. destruct (frame_row data i); [|reflexivity].
  rewrite IH. unfold Csv.writerow. now rewrite lookup_alter_ne.
Qed.

Lemma range_0 (n : nat) : range 0 n = seq 0 n.
Proof. unfold range. now rewrite Nat.sub_0_r. Qed.

Lemma individual_csv_new (filename : string) (key : string) (column : list R)
    (rest : list (string * list R)) (fs : Csv.filesystem) :
  let data := (key, column) :: rest in
  Csv.endswith filename ".csv" = true ->
  fs !! filename = None ->
  Forall (fun entry => (length column <= length (snd entry))%nat) data ->
  individual_to_csv_file filename data fs
  = (Ok tt,
     <[filename :=
         map Csv.CStr (map fst data) :: frame_rows data (length column)]> fs).
Proof.
  intros data Hext Hnew Hrect. unfold individual_to_csv_file, Csv.path_exists.
  rewrite Hext, Hnew. cbn [negb]. unfold data at 1 2.
  cbn [map fst]. unfold index. cbn [lookup list_lookup bind].
  unfold Csv.open_w. rewrite writerow_insert. cbn [app].
  rewrite range_0. rewrite write_frames_seq by exact Hrect.
  unfold frame_rows. now rewrite range_0.
Qed.

Lemma individual_csv_existing (filename : string) (key : string)
    (column : list R) (rest : list (string * list R)) (fs : Csv.filesystem)
    (old : list (list Csv.cell)) :
  let data := (key, column) :: rest in
  Csv.endswith filename ".csv" = true ->
  fs !! filename = Some old ->
  Forall (fun entry => (length column <= length (snd entry))%nat) data ->
  individual_to_csv_file filename data fs
  = (Ok tt, <[filename := old ++ frame_rows data (length column)]> fs).
Proof.
  intros data Hext Hold Hrect. subst data.
  unfold individual_to_csv_file, Csv.path_exists.
  rewrite Hext, Hold. cbn [negb].
  cbn [map fst]. unfold index. cbn [lookup list_lookup bind].
  pose proof (write_frames_seq filename _ 0 (length column) old fs Hrect)
    as W.
  rewrite (insert_id fs filename old Hold) in W.
  rewrite range_0, W. unfold frame_rows. now rewrite range_0.
Qed.

(** X19: on a path ending in .csv that does not exist, for a table whose
    columns are at least as long as the first one, [individual_to_csv_file]
    creates the file with the keys as header row followed by one row per
    frame of the first column: the values of that frame in the order of the
    keys. *)
Theorem individual_csv_creates_file (filename : string) (key : string)
    (column : list R) (rest : list (string * list R)) (fs : Csv.filesystem) :
  let data := (key, column) :: rest in
  Csv.endswith filename ".csv" = true ->
  fs !! filename = None ->
  Forall (fun entry => (length column <= length (snd entry))%nat) data ->
  individual_to_csv_file filename data fs
  = (Ok tt,
     <[filename :=
         map Csv.CStr (map fst data) :: frame_rows data (length column)]> fs) /\
  length (frame_rows data (length column)) = length column.
Proof.
  intros data Hext Hnew Hrect. split.
  - now apply individual_csv_new.
  - unfold frame_rows. now rewrite length_map, range_length, Nat.sub_0_r.
Qed.

Lemma individual_csv_creates_file_witness :
  individual_to_csv_file "cell.csv"
    (("X"%string, [1; 2]) :: [("Y"%string, [3; 4])]) ∅
  = (Ok tt,
     <["cell.csv"%string :=
         map Csv.CStr (map fst (("X"%string, [1; 2]) :: [("Y"%string, [3; 4])]))
         :: frame_rows (("X"%string, [1; 2]) :: [("Y"%string, [3; 4])])
              (length [1; 2])]> ∅) /\
  length (frame_rows (("X"%string, [1; 2]) :: [("Y"%string, [3; 4])])
            (length [1; 2])) = length [1; 2].
Proof.
  apply (individual_csv_creates_file "cell.csv" "X" [1; 2] [("Y"%string, [3; 4])] ∅).
  - reflexivity.
  - apply lookup_empty.
  - repeat constructor.
Defined.

(** X20: on a path ending in .csv that exists, [individual_to_csv_file]
    keeps the rows of the file and appends the rows of the frames after
    them, without a header row. *)
Theorem individual_csv_appends (filename : string) (key : string)
    (column : list R) (rest : list (string * list R)) (fs : Csv.filesystem)
    (old : list (list Csv.cell)) :
  let data := (key, column) :: rest in
  Csv.endswith filename ".csv" = true ->
  fs !! filename = Some old ->
  Forall (fun entry => (length column <= length (snd entry))%nat) data ->
  individual_to_csv_file filename data fs
  = (Ok tt, <[filename := old ++ frame_rows data (length column)]> fs).
Proof. apply individual_csv_existing. Qed.

Lemma individual_csv_appends_witness :
  individual_to_csv_file "cell.csv"
    (("X"%string, [1; 2]) :: [("Y"%string, [3; 4])])
    {["cell.csv"%string := [[Csv.CStr "X"; Csv.CStr "Y"]]]}
  = (Ok tt,
     <["cell.csv"%string :=
         [[Csv.CStr "X"; Csv.CStr "Y"]]
         ++ frame_rows (("X"%string, [1; 2]) :: [("Y"%string, [3; 4])])
              (length [1; 2])]>
       {["cell.csv"%string := [[Csv.CStr "X"; Csv.CStr "Y"]]]}).
Proof.
  apply (individual_csv_appends "cell.csv" "X" [1; 2] [("Y"%string, [3; 4])]).
  - reflexivity.
  - apply lookup_singleton_eq.
  - repeat constructor.
Defined.

(** X21: two exports to the same new path give one header row, that of the
    first export, followed by the rows of the first and then of the second
    export. *)
Theorem individual_csv_twice (filename : string)
    (key1 key2 : string) (column1 column2 : list R)
    (rest1 rest2 : list (string * list R)) (fs : Csv.filesystem) :
  let data1 := (key1, column1) :: rest1 in
  let data2 := (key2, column2) :: rest2 in
  Csv.endswith filename ".csv" = true ->
  fs !! filename = None ->
  Forall (fun entry => (length column1 <= length (snd entry))%nat) data1 ->
  Forall (fun entry => (length column2 <= length (snd entry))%nat) data2 ->
  individual_to_csv_file filename data2
    (snd (individual_to_csv_file filename data1 fs))
  = (Ok tt,
     <[filename :=
         map Csv.CStr (map fst data1)
         :: frame_rows data1 (length column1)
            ++ frame_rows data2 (length column2)]> fs).
Proof.
  intros data1 data2 Hext Hnew H1 H2. subst data1 data2.
  rewrite (individual_csv_new filename key1 column1 rest1 fs Hext Hnew H1).
  cbn [snd].
  rewrite (individual_csv_existing filename key2 column2 rest2 _
             (map Csv.CStr (map fst ((key1, column1) :: rest1))
              :: frame_rows ((key1, column1) :: rest1) (length column1))
             Hext (lookup_insert_eq _ _ _) H2).
  now rewrite insert_insert_eq.
Qed.

Lemma individual_csv_twice_witness :
  individual_to_csv_file "cell.csv"
    (("X"%string, [5]) :: [("Y"%string, [6])])
    (snd (individual_to_csv_file "cell.csv"
            (("X"%string, [1; 2]) :: [("Y"%string, [3; 4])]) ∅))
  = (Ok tt,
     <["cell.csv"%string :=
         map Csv.CStr (map fst (("X"%string, [1; 2]) :: [("Y"%string, [3; 4])]))
         :: frame_rows (("X"%string, [1; 2]) :: [("Y"%string, [3; 4])])
              (length [1; 2])
            ++ frame_rows (("X"%string, [5]) :: [("Y"%string, [6])])
                 (length [5])]> ∅).
Proof.
  apply (individual_csv_twice "cell.csv" "X" "X" [1; 2] [5]
           [("Y"%string, [3; 4])] [("Y"%string, [6])] ∅).
  - reflexivity.
  - apply lookup_empty.
  - repeat constructor.
  - repeat constructor.
Defined.

(** X22: when some column is shorter than the first one, the export raises
    [IndexError] at the first frame that column lacks, and the rows of the
    frames before it have been written: after the header row in a new file,
    after the old rows in an existing one. *)
Theorem individual_csv_short_column (filename : string) (key : string)
    (column : list R) (rest : list (string * list R)) (fs : Csv.filesystem)
    (m : nat) :
  let data := (key, column) :: rest in
  let base := match fs !! filename with
              | Some old => old
              | None => [map Csv.CStr (map fst data)]
              end in
  Csv.endswith filename ".csv" = true ->
  Forall (fun entry => (m <= length (snd entry))%nat) data ->
  Exists (fun entry => (length (snd entry) <= m)%nat) data ->
  (m < length column)%nat ->
  individual_to_csv_file filename data fs
  = (Raise IndexError, <[filename := base ++ frame_rows data m]> fs).
Proof.
  intros data base Hext Hall Hshort Hm. subst data base.
  unfold individual_to_csv_file, Csv.path_exists. rewrite Hext. cbn [negb].
  cbn [map fst]. unfold index. cbn [lookup list_lookup bind].
  assert (Hsplit : range 0 (length column)
                   = seq 0 m ++ m :: seq (S m) (length column - S m)).
  { rewrite range_0.
    replace (length column) with (m + S (length column - S m))%nat at 1 by lia.
    now rewrite seq_app. }
  rewrite Hsplit, !write_frames_app.
  unfold frame_rows. rewrite range_0.
  destruct (fs !! filename) as [old|] eqn:Hfile.
  - pose proof (write_frames_seq filename ((key, column) :: rest) 0 m old fs Hall)
      as W.
    rewrite (insert_id fs filename old Hfile) in W. rewrite W.
    now rewrite write_frames_stop.
  - unfold Csv.open_w. rewrite writerow_insert. cbn [app].
    rewrite write_frames_seq by exact Hall.
    now rewrite write_frames_stop.
Qed.

Lemma individual_csv_short_column_witness :
  individual_to_csv_file "cell.csv"
    (("X"%string, [1; 2; 3]) :: [("Y"%string, [4])]) ∅
  = (Raise IndexError,
     <["cell.csv"%string :=
         match (∅ : Csv.filesystem) !! "cell.csv"%string with
         | Some old => old
         | None =>
             [map Csv.CStr
                (map fst (("X"%string, [1; 2; 3]) :: [("Y"%string, [4])]))]
         end
         ++ frame_rows (("X"%string, [1; 2; 3]) :: [("Y"%string, [4])]) 1]> ∅).
Proof.
  apply (individual_csv_short_column "cell.csv" "X" [1; 2; 3]
           [("Y"%string, [4])] ∅ 1).
  - reflexivity.
  - repeat constructor; simpl; lia.
  - right. left. simpl. lia.
  - simpl. lia.
Defined.

(** A table without columns makes [individual_to_csv_file] raise
    [IndexError] at [headers[0]], whether or not the file exists, and the
    file system is left as it was. *)
Theorem individual_csv_no_columns (filename : string) (fs : Csv.filesystem) :
  Csv.endswith filename ".csv" = true ->
  individual_to_csv_file filename [] fs = (Raise IndexError, fs).
Proof.
  intros Hext. unfold individual_to_csv_file. rewrite Hext. reflexivity.
Qed.

Lemma individual_csv_no_columns_witness :
  individual_to_csv_file "cell.csv" [] ∅ = (Raise IndexError, ∅).
Proof. apply (individual_csv_no_columns "cell.csv"). reflexivity. Defined.

(** X23: neither CSV export touches a file other than the one it is given,
    whatever its outcome. *)
Theorem csv_exports_touch_one_file (filename other : string)
    (positional_data : list (Z * list point)) (area_data : list (Z * list R))
    (positional_headers area_headers : option (list string))
    (data : list (string * list R)) (fs : Csv.filesystem) :
  other <> filename ->
  snd (culture_to_csv_file filename positional_data area_data
         positional_headers area_headers fs) !! other = fs !! other /\
  snd (individual_to_csv_file filename data fs) !! other = fs !! other.
Proof.
  intros Hne. split.
  - unfold culture_to_csv_file.
    destruct (negb (Csv.endswith filename ".csv")); [reflexivity|].
    destruct (Csv.path_exists fs filename); [reflexivity|].
    destruct (let! id0 := index (map fst positional_data) 0 in
              Csv.lookup_key positional_data id0); [|reflexivity].
    rewrite write_rows_other by assumption.
    unfold Csv.writerow, Csv.open_w.
    now rewrite lookup_alter_ne, lookup_insert_ne by congruence.
  - unfold individual_to_csv_file.
    destruct (negb (Csv.endswith filename ".csv")); [reflexivity|].
    destruct (let! key := index (map fst data) 0 in
              match data with
              | [] => Raise KeyError
              | (_, column) :: _ => Ok column
              end); [|reflexivity].
    destruct (Csv.path_exists fs filename);
      rewrite write_frames_other by assumption; [reflexivity|].
    unfold Csv.writerow, Csv.open_w.
    now rewrite lookup_alter_ne, lookup_insert_ne by congruence.
Qed.

Lemma csv_exports_touch_one_file_witness :
  snd (culture_to_csv_file "cells.csv" [(7%Z, [(1, 2)])] [(7%Z, [5])]
         None None {["other.csv"%string := [[Csv.CStr "kept"]]]})
    !! "other.csv"%string
  = ({["other.csv"%string := [[Csv.CStr "kept"]]]} : Csv.filesystem)
      !! "other.csv"%string /\
  snd (individual_to_csv_file "cells.csv" [("X"%string, [1])]
         {["other.csv"%string := [[Csv.CStr "kept"]]]})
    !! "other.csv"%string
  = ({["other.csv"%string := [[Csv.CStr "kept"]]]} : Csv.filesystem)
      !! "other.csv"%string.
Proof.
  apply (csv_exports_touch_one_file "cells.csv" "other.csv").
  discriminate.
Defined.

(** ** The spreadsheet exports *)

Lemma header_cells_spec (row col : nat) (headers : list string)
    (r c : nat) (v : pyval) :
  In (r, c, v) (Excel.header_cells row col headers) <->
  r = row /\
  exists i h, nth_error headers i = Some h /\ c = (col + i)%nat /\ v = VStr h.
Proof.
  revert col. induction headers as [|h0 headers IH]; intros col;
    cbn [Excel.header_cells In].
  - split; [intros []|]. intros (_ & i & h & Hi & _). now destruct i.
  - rewrite IH. split.
    + intros [H|(Hr & i & h & Hi & Hc & Hv)].
      * injection H as <- <- <-. split; [reflexivity|].
        exists 0%nat, h0. repeat split. lia.
      * split; [assumption|]. exists (S i), h. repeat split; auto. lia.
    + intros (Hr & i & h & Hi & Hc & Hv). destruct i as [|i].
      * left. injection Hi as <-. subst. repeat f_equal. lia.
      * right. split; [assumption|]. exists i, h. repeat split; auto. lia.
Qed.





Lemma size_cells_spec (row col : nat) (value : list R)
    (r c : nat) (v : pyval) :
  In (r, c, v) (Excel.size_cells row col value) <->
  r = row /\
  exists k a, nth_error value k = Some a /\ c = (col + k)%nat /\ v = VNum a.
Proof.
  revert col. induction value as [|a0 value IH]; intros col;
    cbn [Excel.size_cells In].
  - split; [intros []|]. intros (_ & k & a & Hk & _). now destruct k.
  - rewrite IH. split.
    + intros [H|(Hr & k & a & Hk & Hc & Hv)].
      * injection H as <- <- <-. split; [reflexivity|].
        exists 0%nat, a0. repeat split. lia.
      * split; [assumption|]. exists (S k), a. repeat split; auto. lia.
    + intros (Hr & k & a & Hk & Hc & Hv). destruct k as [|k].
      * left. injection Hk as <-. subst. repeat f_equal. lia.
      * right. split; [assumption|]. exists k, a. repeat split; auto. lia.
Qed.

Lemma area_rows_spec (row : nat) (data : list (Z * list R))
    (r c : nat) (v : pyval) :
  In (r, c, v) (Excel.area_rows row data) <->
  exists j key value,
    nth_error data j = Some (key, value) /\ r = (row + j)%nat /\
    ((c = 1%nat /\ v = VId key) \/
     (exists k a, nth_error value k = Some a /\ c = (2 + k)%nat /\ v = VNum a) \/
     (c = (2 + length value)%nat /\ v = VStr (Excel.growth_formula r c)) \/
     (c = (3 + length value)%nat /\ v = VStr (Excel.change_formula r c))).
Proof.
  revert row. induction data as [|[key0 value0] data IH]; intros row;
    cbn [Excel.area_rows In].
  - split; [intros []|]. intros (j & key & value & Hj & _). now destruct j.
  - rewrite !in_app_iff, size_cells_spec, IH. cbn [In]. split.
    + intros [H|[(Hr & k & a & Hk & Hc & Hv)|[[H|[H|[]]]|(j & key & value & Hj & Hr & Hc)]]].
      * injection H as <- <- <-. exists 0%nat, key0, value0.
        split; [reflexivity|]. split; [lia|]. now left.
      * exists 0%nat, key0, value0. split; [reflexivity|]. split; [lia|].
        right; left. exists k, a. auto.
      * injection H as <- <- <-. exists 0%nat, key0, value0.
        split; [reflexivity|]. split; [lia|]. right; right; left. auto.
      * injection H as <- <- <-. exists 0%nat, key0, value0.
        split; [reflexivity|]. split; [lia|]. right; right; right.
        split; [lia|reflexivity].
      * exists (S j), key, value. split; [assumption|]. split; [lia|assumption].
    + intros (j & key & value & Hj & Hr & Hc). destruct j as [|j].
      * injection Hj as <- <-.
        destruct Hc as [[Hc Hv]|[(k & a & Hk & Hc & Hv)|[[Hc Hv]|[Hc Hv]]]].
        -- left. subst. repeat f_equal. lia.
        -- right; left. split; [lia|]. exists k, a. auto.
        -- right; right; left. left. subst. repeat f_equal; lia.
        -- right; right; left. right; left. subst.
           replace (row + 0)%nat with row by lia.
           replace (3 + length value0)%nat with (2 + length value0 + 1)%nat
             by lia.
           reflexivity.
      * right; right; right. exists j, key, value. split; [assumption|].
        split; [lia|assumption].
Qed.

(** X25: for a name ending in .xls or .xlsx, [area_to_excel_file] saves a
    sheet whose cells are exactly these: the headers in row 1; for the cell
    number j, its id in row 2+j, column 1, its area number k in column 2+k,
    the growth formula in the column after the last area and the
    change formula in the column after that, each written for its own row and
    column. *)
Theorem area_sheet_layout (filename : string)
    (data : list (Z * list R)) (headers : option (list string))
    (sheetname : option string) :
  Excel.extension_ok filename = true ->
  exists sheet,
    area_to_excel_file filename data headers sheetname = Ok sheet /\
    Excel.file sheet = filename /\ Excel.sheetname sheet = sheetname /\
    forall r c v,
      In (r, c, v) (Excel.cells sheet) <->
      (r = 1%nat /\
       exists i h, nth_error (default [] headers) i = Some h /\
                   c = (1 + i)%nat /\ v = VStr h) \/
      (exists j key value,
         nth_error data j = Some (key, value) /\ r = (2 + j)%nat /\
         ((c = 1%nat /\ v = VId key) \/
          (exists k a, nth_error value k = Some a /\
                       c = (2 + k)%nat /\ v = VNum a) \/
          (c = (2 + length value)%nat /\
           v = VStr (Excel.growth_formula r c)) \/
          (c = (3 + length value)%nat /\
           v = VStr (Excel.change_formula r c)))).
Proof.
  intros Hext. unfold area_to_excel_file. rewrite Hext. cbn [negb].
  eexists. split; [reflexivity|]. cbn [Excel.file Excel.sheetname Excel.cells].
  split; [reflexivity|]. split; [reflexivity|]. intros r c v.
  now rewrite in_app_iff, header_cells_spec, area_rows_spec.
Qed.

Lemma area_sheet_layout_witness :
  exists sheet,
    area_to_excel_file "cells.xlsx" [(7%Z, [5; 6])]
      (Some ["id"%string]) (Some "Areas"%string) = Ok sheet /\
    Excel.file sheet = "cells.xlsx"%string /\
    Excel.sheetname sheet = Some "Areas"%string /\
    forall r c v,
      In (r, c, v) (Excel.cells sheet) <->
      (r = 1%nat /\
       exists i h, nth_error (default [] (Some ["id"%string])) i = Some h /\
                   c = (1 + i)%nat /\ v = VStr h) \/
      (exists j key value,
         nth_error [(7%Z, [5; 6])] j = Some (key, value) /\ r = (2 + j)%nat /\
         ((c = 1%nat /\ v = VId key) \/
          (exists k a, nth_error value k = Some a /\
                       c = (2 + k)%nat /\ v = VNum a) \/
          (c = (2 + length value)%nat /\
           v = VStr (Excel.growth_formula r c)) \/
          (c = (3 + length value)%nat /\
           v = VStr (Excel.change_formula r c)))).
Proof.
  apply (area_sheet_layout "cells.xlsx"). reflexivity.
Defined.


















